(** * CubeFileOpenInterceptor: cache hit-rate counters

    A shallow embedding of
    [aimagic/cube_torch/cube_torch/cube_file_open_interceptor.py].

    The class keeps all its data in class-level attributes, which every
    static method reads and assigns through the class name.  The embedding
    threads one record of those attributes through a small state and
    exception monad.

    Numbers.  The counters are Python integers (unbounded): [Z].  A preload
    time is a Python [int] or a Python [float]; a float is an IEEE 754
    binary64 value, embedded as [spec_float] with precision 53 and maximal
    exponent 1024, and computed on with the operations of the Standard
    Library's [SpecFloat] (round to nearest, ties to even).  Python's [+]
    on an [int] and a [float] and its [/] convert the [int] operand and
    raise [OverflowError] when it is out of the range of a float; [/] of
    two [int]s gives the correctly rounded quotient, or [OverflowError].
    [str] of an [int] is total here: the limit that recent CPython versions
    put on the digits of such a conversion is far above any counter of a
    process. *)

From Stdlib Require Import ZArith Lia List String Ascii Bool.
From Stdlib Require Import DecimalString.
From Stdlib Require Import SpecFloat.
Import ListNotations.

Local Open Scope Z_scope.

(** ** Python numbers *)

Definition prec : Z := 53.
Definition emax : Z := 1024.

Inductive num : Type :=
| PyInt (z : Z)
| PyFloat (f : spec_float).

Inductive exn : Type :=
| ZeroDivisionError
| OverflowError.

Inductive outcome (A : Type) : Type :=
| Return (a : A)
| Raise (e : exn).
Arguments Return {A} a.
Arguments Raise {A} e.

(** A float result that came out infinite stands for a range error of the
    conversion or of the division of integers that produced it. *)
Definition finite_or_overflow (f : spec_float) : outcome spec_float :=
  match f with
  | S754_infinity _ => Raise OverflowError
  | _ => Return f
  end.

(** [float(z)] as [+] and [/] apply it to an [int] operand. *)
Definition float_of_int (z : Z) : outcome spec_float :=
  finite_or_overflow (binary_normalize prec emax z 0 false).

(** An integer as an unrounded mantissa with exponent 0. *)
Definition int_mantissa (z : Z) : spec_float :=
  match z with
  | Z0 => S754_zero false
  | Zpos p => S754_finite false p 0
  | Zneg p => S754_finite true p 0
  end.

(** [a / b] on two [int]s. *)
Definition int_truediv (a b : Z) : outcome spec_float :=
  if b =? 0 then Raise ZeroDivisionError
  else if a =? 0 then Return (S754_zero (b <? 0))
  else finite_or_overflow (SFdiv prec emax (int_mantissa a) (int_mantissa b)).

Definition is_zero (f : spec_float) : bool :=
  match f with S754_zero _ => true | _ => false end.

(** [a / b] on two [float]s. *)
Definition float_truediv (f g : spec_float) : outcome spec_float :=
  if is_zero g then Raise ZeroDivisionError else Return (SFdiv prec emax f g).

Definition outcome_bind {A B} (o : outcome A) (k : A -> outcome B)
  : outcome B :=
  match o with
  | Return a => k a
  | Raise e => Raise e
  end.

(** [x / b] where [b] is an [int], as in lines 52-58. *)
Definition num_truediv_int (x : num) (b : Z) : outcome spec_float :=
  match x with
  | PyInt a => int_truediv a b
  | PyFloat f => outcome_bind (float_of_int b) (float_truediv f)
  end.

(** [x + y]. *)
Definition num_add (x y : num) : outcome num :=
  match x, y with
  | PyInt a, PyInt b => Return (PyInt (a + b))
  | PyInt a, PyFloat g =>
      outcome_bind (float_of_int a)
                   (fun f => Return (PyFloat (SFadd prec emax f g)))
  | PyFloat f, PyInt b =>
      outcome_bind (float_of_int b)
                   (fun g => Return (PyFloat (SFadd prec emax f g)))
  | PyFloat f, PyFloat g => Return (PyFloat (SFadd prec emax f g))
  end.

(** [100.0], and [q * 100] for a float [q]: the conversion of 100 cannot
    fail and the product of two floats does not raise. *)
Definition float_100 : spec_float := binary_normalize prec emax 100 0 false.

Definition times_100 (q : spec_float) : spec_float :=
  SFmul prec emax q float_100.

(** ** Class attributes *)

(** [_instance] and [timer] hold object references that no static method
    reads or assigns; they are left out. *)
Record State : Type := mkState {
  cube_root_dir : string;
  cube_cache_dir : string;
  _last_cycle_hit_count : Z;
  _last_cycle_miss_count : Z;
  _last_cycle_preload_time : num;
  total_count : Z;
  total_hit_count : Z;
  total_miss_count : Z;
  total_preload_time : num;
  should_exit : bool
}.

(** The attribute values of the class body (lines 6-15). *)
Definition init : State :=
  {| cube_root_dir := "/tmp";
     cube_cache_dir := "user memory";
     _last_cycle_hit_count := 0;
     _last_cycle_miss_count := 0;
     _last_cycle_preload_time := PyInt 0;
     total_count := 0;
     total_hit_count := 0;
     total_miss_count := 0;
     total_preload_time := PyInt 0;
     should_exit := false |}.

(** ** State and exception monad *)

(** A computation runs on the class attributes and leaves them as they are
    at the point where it returns or raises. *)
Definition M (A : Type) : Type := State -> outcome A * State.

Definition ret {A} (a : A) : M A := fun s => (Return a, s).

Definition bind {A B} (m : M A) (k : A -> M B) : M B :=
  fun s => match m s with
           | (Return a, s') => k a s'
           | (Raise e, s') => (Raise e, s')
           end.

Definition raise {A} (e : exn) : M A := fun s => (Raise e, s).
Definition gets {A} (f : State -> A) : M A := fun s => (Return (f s), s).
Definition modify (f : State -> State) : M unit := fun s => (Return tt, f s).

(** The value or the exception of an arithmetic operation. *)
Definition lift {A} (o : outcome A) : M A := fun s => (o, s).

Declare Scope py_scope.
Delimit Scope py_scope with py.
Notation "x <- m ;; k" := (bind m (fun x => k))
  (at level 61, m at next level, right associativity) : py_scope.
Notation "m ;;; k" := (bind m (fun _ => k))
  (at level 61, right associativity) : py_scope.

(** ** Attribute assignment *)

Definition set_cube_root_dir (v : string) (s : State) : State :=
  mkState v (cube_cache_dir s)
          (_last_cycle_hit_count s) (_last_cycle_miss_count s)
          (_last_cycle_preload_time s)
          (total_count s) (total_hit_count s) (total_miss_count s)
          (total_preload_time s) (should_exit s).

Definition set_last_cycle_hit_count (v : Z) (s : State) : State :=
  mkState (cube_root_dir s) (cube_cache_dir s)
          v (_last_cycle_miss_count s) (_last_cycle_preload_time s)
          (total_count s) (total_hit_count s) (total_miss_count s)
          (total_preload_time s) (should_exit s).

Definition set_last_cycle_miss_count (v : Z) (s : State) : State :=
  mkState (cube_root_dir s) (cube_cache_dir s)
          (_last_cycle_hit_count s) v (_last_cycle_preload_time s)
          (total_count s) (total_hit_count s) (total_miss_count s)
          (total_preload_time s) (should_exit s).

Definition set_last_cycle_preload_time (v : num) (s : State) : State :=
  mkState (cube_root_dir s) (cube_cache_dir s)
          (_last_cycle_hit_count s) (_last_cycle_miss_count s) v
          (total_count s) (total_hit_count s) (total_miss_count s)
          (total_preload_time s) (should_exit s).

Definition set_total_count (v : Z) (s : State) : State :=
  mkState (cube_root_dir s) (cube_cache_dir s)
          (_last_cycle_hit_count s) (_last_cycle_miss_count s)
          (_last_cycle_preload_time s)
          v (total_hit_count s) (total_miss_count s)
          (total_preload_time s) (should_exit s).

Definition set_total_hit_count (v : Z) (s : State) : State :=
  mkState (cube_root_dir s) (cube_cache_dir s)
          (_last_cycle_hit_count s) (_last_cycle_miss_count s)
          (_last_cycle_preload_time s)
          (total_count s) v (total_miss_count s)
          (total_preload_time s) (should_exit s).

Definition set_total_miss_count (v : Z) (s : State) : State :=
  mkState (cube_root_dir s) (cube_cache_dir s)
          (_last_cycle_hit_count s) (_last_cycle_miss_count s)
          (_last_cycle_preload_time s)
          (total_count s) (total_hit_count s) v
          (total_preload_time s) (should_exit s).

Definition set_total_preload_time (v : num) (s : State) : State :=
  mkState (cube_root_dir s) (cube_cache_dir s)
          (_last_cycle_hit_count s) (_last_cycle_miss_count s)
          (_last_cycle_preload_time s)
          (total_count s) (total_hit_count s) (total_miss_count s)
          v (should_exit s).

(** ** Rendering *)

(** [n / d] rounded to the nearest integer, ties to the even one
    ([0 < d]). *)
Definition round_half_even (n d : Z) : Z :=
  let f := n / d in
  let r := n mod d in
  match 2 * r ?= d with
  | Lt => f
  | Gt => f + 1
  | Eq => if Z.even f then f else f + 1
  end.

Definition str_int (z : Z) : string := NilZero.string_of_int (Z.to_int z).

Definition two_digits (z : Z) : string :=
  if z <? 10 then ("0" ++ str_int z)%string else str_int z.

(** The hundredths nearest to the exact value [m * 2 ^ e]. *)
Definition hundredths (m : positive) (e : Z) : Z :=
  if 0 <=? e then Zpos m * 2 ^ e * 100
  else round_half_even (Zpos m * 100) (2 ^ (- e)).

(** [{:.2f}] on a float: the sign of the float, then integer part and two
    decimals of its exact value rounded to hundredths. *)
Definition fmt2 (x : spec_float) : string :=
  match x with
  | S754_nan => "nan"
  | S754_infinity s => if s then "-inf" else "inf"
  | S754_zero s => if s then "-0.00" else "0.00"
  | S754_finite s m e =>
      let n := hundredths m e in
      ((if s then "-" else "")
         ++ str_int (n / 100) ++ "." ++ two_digits (n mod 100))%string
  end.

(** ** The static methods *)

Local Open Scope py_scope.

(** [set_params] (lines 29-31). *)
Definition set_params (cube_root_dir : string) : M unit :=
  modify (set_cube_root_dir cube_root_dir).

(** [add_count] (lines 33-39).  Line 36 has run when line 37 raises. *)
Definition add_count (is_cache : bool) (preload_time : num) : M unit :=
  if is_cache then
    h <- gets _last_cycle_hit_count ;;
    modify (set_last_cycle_hit_count (h + 1)) ;;;
    p <- gets _last_cycle_preload_time ;;
    v <- lift (num_add p preload_time) ;;
    modify (set_last_cycle_preload_time v)
  else
    m <- gets _last_cycle_miss_count ;;
    modify (set_last_cycle_miss_count (m + 1)).

(** The fifteen arguments of [format] (lines 63-70), in order.  [now] and
    [pid] stand for [datetime.now()], already rendered, and [os.getpid()]. *)
Record FormatArgs : Type := mkArgs {
  arg_now : string;
  arg_pid : Z;
  arg_cube_cache_dir : string;
  arg_request_count : Z;
  arg_hit_count : Z;
  arg_miss_count : Z;
  arg_hit_rate : spec_float;
  arg_miss_rate : spec_float;
  arg_avg_preload_time : spec_float;
  arg_total_count : Z;
  arg_total_hit_count : Z;
  arg_total_miss_count : Z;
  arg_total_hit_rate : spec_float;
  arg_total_miss_rate : spec_float;
  arg_total_avg_preload_time : spec_float
}.

(** The format string of lines 60-62 applied to its arguments. *)
Definition format_mesg (a : FormatArgs) : string :=
  ("time:" ++ arg_now a ++ " pid:" ++ str_int (arg_pid a)
   ++ " cube_cache_dir:" ++ arg_cube_cache_dir a
   ++ " last_cycle_metrics:([request_count:" ++ str_int (arg_request_count a)
   ++ " hit_count:" ++ str_int (arg_hit_count a)
   ++ " miss_count:" ++ str_int (arg_miss_count a)
   ++ " hit_rate:" ++ fmt2 (arg_hit_rate a)
   ++ "% miss_rate:" ++ fmt2 (arg_miss_rate a)
   ++ "%  avg_preload_time:" ++ fmt2 (arg_avg_preload_time a)
   ++ " s])  sum_metrics:([request_count:" ++ str_int (arg_total_count a)
   ++ " hit_count:" ++ str_int (arg_total_hit_count a)
   ++ " miss_count:" ++ str_int (arg_total_miss_count a)
   ++ " hit_rate:" ++ fmt2 (arg_total_hit_rate a)
   ++ "% miss_rate:" ++ fmt2 (arg_total_miss_rate a)
   ++ "% avg_preload_time:" ++ fmt2 (arg_total_avg_preload_time a)
   ++ " s]) ")%string.

(** Lines 43-70: the accumulation and the arguments of the message.  The
    three lifetime counters are assigned before anything can raise. *)
Definition report_args (now : string) (pid : Z) : M FormatArgs :=
  h <- gets _last_cycle_hit_count ;;
  m <- gets _last_cycle_miss_count ;;
  let request_count := h + m in
  let request_count := if request_count =? 0 then 1 else request_count in
  tc <- gets total_count ;;
  modify (set_total_count (tc + request_count)) ;;;
  th <- gets total_hit_count ;;
  h <- gets _last_cycle_hit_count ;;
  modify (set_total_hit_count (th + h)) ;;;
  tm <- gets total_miss_count ;;
  m <- gets _last_cycle_miss_count ;;
  modify (set_total_miss_count (tm + m)) ;;;
  tp <- gets total_preload_time ;;
  p <- gets _last_cycle_preload_time ;;
  v <- lift (num_add tp p) ;;
  modify (set_total_preload_time v) ;;;
  h <- gets _last_cycle_hit_count ;;
  q <- lift (int_truediv h request_count) ;;
  let last_cycle_hit_rate := times_100 q in
  m <- gets _last_cycle_miss_count ;;
  q <- lift (int_truediv m request_count) ;;
  let last_cycle_miss_rate := times_100 q in
  p <- gets _last_cycle_preload_time ;;
  last_cycle_avg_preload_time <- lift (num_truediv_int p request_count) ;;
  th <- gets total_hit_count ;;
  tc <- gets total_count ;;
  q <- lift (int_truediv th tc) ;;
  let total_hit_rate := times_100 q in
  tm <- gets total_miss_count ;;
  tc <- gets total_count ;;
  q <- lift (int_truediv tm tc) ;;
  let total_miss_rate := times_100 q in
  tp <- gets total_preload_time ;;
  tc <- gets total_count ;;
  total_avg_preload_time <- lift (num_truediv_int tp tc) ;;
  label <- gets cube_cache_dir ;;
  h <- gets _last_cycle_hit_count ;;
  m <- gets _last_cycle_miss_count ;;
  tc <- gets total_count ;;
  th <- gets total_hit_count ;;
  tm <- gets total_miss_count ;;
  ret (mkArgs now pid label request_count h m
              last_cycle_hit_rate last_cycle_miss_rate
              last_cycle_avg_preload_time
              tc th tm
              total_hit_rate total_miss_rate total_avg_preload_time).

(** [print_hit_rate] (lines 41-76).  The value returned is the line given
    to [print]. *)
Definition print_hit_rate (now : string) (pid : Z) : M string :=
  a <- report_args now pid ;;
  let print_mesg := format_mesg a in
  modify (set_last_cycle_hit_count 0) ;;;
  modify (set_last_cycle_miss_count 0) ;;;
  modify (set_last_cycle_preload_time (PyInt 0)) ;;;
  ret print_mesg.

(** ** Sequences of calls *)

Inductive call : Type :=
| SetParams (cube_root_dir : string)
| AddCount (is_cache : bool) (preload_time : num)
| PrintHitRate (now : string) (pid : Z).

(** One call from a caller: what it got back and the attributes after it. *)
Definition invoke (c : call) : M (option string) :=
  match c with
  | SetParams d => set_params d ;;; ret None
  | AddCount b p => add_count b p ;;; ret None
  | PrintHitRate now pid => l <- print_hit_rate now pid ;; ret (Some l)
  end.

Definition step (s : State) (c : call) : State := snd (invoke c s).

(** The attributes after a sequence of calls; an exception ends the call
    that raised it, not the process. *)
Definition run (t : list call) (s : State) : State := fold_left step t s.

Definition is_flush (c : call) : bool :=
  match c with PrintHitRate _ _ => true | _ => false end.

(** ** What one flush computes, in closed form *)

(** The divisor of lines 43-45. *)
Definition request_count_of (s : State) : Z :=
  let request_count := _last_cycle_hit_count s + _last_cycle_miss_count s in
  if request_count =? 0 then 1 else request_count.

(** The attributes after lines 47-49. *)
Definition accumulate_counts (s : State) : State :=
  mkState (cube_root_dir s) (cube_cache_dir s)
          (_last_cycle_hit_count s) (_last_cycle_miss_count s)
          (_last_cycle_preload_time s)
          (total_count s + request_count_of s)
          (total_hit_count s + _last_cycle_hit_count s)
          (total_miss_count s + _last_cycle_miss_count s)
          (total_preload_time s)
          (should_exit s).

(** The attributes after lines 74-76. *)
Definition reset (s : State) : State :=
  mkState (cube_root_dir s) (cube_cache_dir s) 0 0 (PyInt 0)
          (total_count s) (total_hit_count s) (total_miss_count s)
          (total_preload_time s) (should_exit s).

(** Lines 52-70 on the attributes [s] that lines 47-50 left, with the
    divisor [rc] of the cycle. *)
Definition rates (now : string) (pid : Z) (rc : Z) (s : State)
  : outcome FormatArgs :=
  outcome_bind (int_truediv (_last_cycle_hit_count s) rc) (fun q1 =>
  outcome_bind (int_truediv (_last_cycle_miss_count s) rc) (fun q2 =>
  outcome_bind (num_truediv_int (_last_cycle_preload_time s) rc) (fun q3 =>
  outcome_bind (int_truediv (total_hit_count s) (total_count s)) (fun q4 =>
  outcome_bind (int_truediv (total_miss_count s) (total_count s)) (fun q5 =>
  outcome_bind (num_truediv_int (total_preload_time s) (total_count s))
               (fun q6 =>
  Return (mkArgs now pid (cube_cache_dir s) rc
                 (_last_cycle_hit_count s) (_last_cycle_miss_count s)
                 (times_100 q1) (times_100 q2) q3
                 (total_count s) (total_hit_count s) (total_miss_count s)
                 (times_100 q4) (times_100 q5) q6))))))).

(** The counters are never negative. *)
Definition wf (s : State) : Prop :=
  0 <= _last_cycle_hit_count s /\ 0 <= _last_cycle_miss_count s /\
  0 <= total_count s.

(** The value a computation returned, if it did not raise. *)
Definition returned {A} (o : outcome A) : option A :=
  match o with Return a => Some a | Raise _ => None end.

Definition is_return {A} (o : outcome A) : bool :=
  match o with Return _ => true | Raise _ => false end.

(** The shape of a result of [binary_round_aux]: mantissa, exponent and the
    test on the exponent that tells a finite float from an infinite one. *)
Definition bra_result (sx : bool) (m e : Z) : spec_float :=
  match m with
  | Z0 => S754_zero sx
  | Zpos p => if e <=? 971 then S754_finite sx p e else S754_infinity sx
  | Zneg _ => S754_nan
  end.

(** ** Cycles and traces *)

(** What each call of a trace gave back to its caller. *)
Fixpoint outputs (t : list call) (s : State) : list (outcome (option string)) :=
  match t with
  | [] => []
  | c :: t' => fst (invoke c s) :: outputs t' (step s c)
  end.

(** Every [print_hit_rate] of the trace returned. *)
Fixpoint flushes_return (t : list call) (s : State) : bool :=
  match t with
  | [] => true
  | c :: t' =>
      (if is_flush c then is_return (fst (invoke c s)) else true)
        && flushes_return t' (step s c)
  end.

(** A sufficient condition for no call to raise: fewer than [2 ^ 53]
    calls, and every [int] passed as the preload time of a hit at most
    [2 ^ 900] in absolute value.  Floats are not restricted. *)
Definition int_bound : Z := 2 ^ 900.
Definition call_bound : Z := 2 ^ 53.

Definition tame_call (c : call) : Prop :=
  match c with
  | AddCount true (PyInt z) => Z.abs z <= int_bound
  | _ => True
  end.

Definition tame (t : list call) : Prop :=
  Z.of_nat (List.length t) < call_bound /\ Forall tame_call t.

(** The invariant that a tame trace keeps: after [n] calls the counters are
    bounded by [n], the hits and misses flushed by the requests flushed,
    and an [int] preload total by [int_bound] times the hits it covers. *)
Definition small_int (x : num) (k : Z) : Prop :=
  match x with
  | PyInt z => Z.abs z <= int_bound * k
  | PyFloat _ => True
  end.

Definition tame_state (n : Z) (s : State) : Prop :=
  0 <= _last_cycle_hit_count s
  /\ 0 <= _last_cycle_miss_count s
  /\ 0 <= total_hit_count s
  /\ 0 <= total_miss_count s
  /\ total_hit_count s + total_miss_count s <= total_count s
  /\ total_count s + _last_cycle_hit_count s + _last_cycle_miss_count s <= n
  /\ small_int (_last_cycle_preload_time s) (_last_cycle_hit_count s)
  /\ small_int (total_preload_time s) (total_hit_count s).

(** The [add_count] calls of a trace that no [print_hit_rate] has closed
    yet number [n]; [empty_flushes_from n t] counts the flushes of [t] that
    close a cycle without any [add_count] call. *)
Fixpoint empty_flushes_from (n : nat) (t : list call) : Z :=
  match t with
  | [] => 0
  | SetParams _ :: t' => empty_flushes_from n t'
  | AddCount _ _ :: t' => empty_flushes_from (S n) t'
  | PrintHitRate _ _ :: t' =>
      (match n with O => 1 | S _ => 0 end) + empty_flushes_from O t'
  end.

Definition empty_flushes (t : list call) : Z := empty_flushes_from O t.

(** A reporting cycle: the [add_count] calls made in it and the flush that
    ends it. *)
Record cycle : Type := mkCycle {
  records : list (bool * num);
  flush_now : string;
  flush_pid : Z
}.

Definition record_calls (rs : list (bool * num)) : list call :=
  map (fun r => AddCount (fst r) (snd r)) rs.

Definition cycle_calls (c : cycle) : list call :=
  record_calls (records c) ++ [PrintHitRate (flush_now c) (flush_pid c)].

Definition cycles_calls (cs : list cycle) : list call :=
  flat_map cycle_calls cs.

Definition count_hits (rs : list (bool * num)) : Z :=
  Z.of_nat (List.length (filter (fun r => fst r) rs)).

Definition count_misses (rs : list (bool * num)) : Z :=
  Z.of_nat (List.length (filter (fun r => negb (fst r)) rs)).

Definition cycle_hits (c : cycle) : Z := count_hits (records c).
Definition cycle_misses (c : cycle) : Z := count_misses (records c).

Definition Zsum (l : list Z) : Z := fold_right Z.add 0 l.

(** What a flush adds to [total_count] for a cycle, and the number of
    cycles without any [add_count] call. *)
Definition cycle_requests (c : cycle) : Z :=
  Z.max (cycle_hits c + cycle_misses c) 1.

Definition empty_cycles (cs : list cycle) : Z :=
  Zsum (map (fun c => match records c with [] => 1 | _ :: _ => 0 end) cs).

Definition no_flush (t : list call) : Prop :=
  Forall (fun c => is_flush c = false) t.

(** The four lifetime accumulators of a state. *)
Definition totals (s : State) : Z * Z * Z * num :=
  (total_count s, total_hit_count s, total_miss_count s, total_preload_time s).

(** The [add_count] calls of a trace with [is_cache] true, and those with
    [is_cache] false. *)
Definition hit_calls (t : list call) : Z :=
  Z.of_nat (List.length
              (filter (fun c => match c with
                                | AddCount true _ => true
                                | _ => false
                                end) t)).

Definition miss_calls (t : list call) : Z :=
  Z.of_nat (List.length
              (filter (fun c => match c with
                                | AddCount false _ => true
                                | _ => false
                                end) t)).

(** The floats 0.5, 1.5 and 1.0, and the scenario of the first reporting
    cycle and of the second one. *)
Definition half : spec_float := S754_finite false 4503599627370496 (-53).
Definition three_halves : spec_float :=
  S754_finite false 6755399441055744 (-52).
Definition one : spec_float := S754_finite false 4503599627370496 (-52).

Definition first_cycle : list call :=
  [SetParams "cache-A"; AddCount true (PyFloat half);
   AddCount true (PyFloat three_halves); AddCount false (PyInt 0)].

Definition second_cycle : list call := [AddCount true (PyFloat one)].

(** ** The singleton (lines 5 and 18-21) *)

(** Objects are named by their allocation number. *)
Definition obj : Type := nat.

(** [_instance], and the number of objects [object.__new__] has made. *)
Record Instances : Type := mkInstances {
  _instance : option obj;
  created : nat
}.

Definition no_instance : Instances := mkInstances None 0.

Inductive new_result : Type :=
| NewReturn (o : obj)
| NewTypeError.

(** [__new__].  [excess_args] tells whether [args] or [kwargs] is not
    empty.  An object is truthy, [None] is not.  [super().__new__] is
    [object.__new__], which makes a new object of a class that overrides
    [__new__] only when it gets no further argument, and raises
    [TypeError] otherwise; the assignment of line 20 is then not reached. *)
Definition __new__ (excess_args : bool) (i : Instances)
  : new_result * Instances :=
  match _instance i with
  | Some o => (NewReturn o, i)
  | None =>
      if excess_args then (NewTypeError, i)
      else
        let o := created i in
        (NewReturn o, mkInstances (Some o) (S (created i)))
  end.

(** A sequence of [__new__] calls: the results, and the class after them. *)
Fixpoint news (calls : list bool) (i : Instances)
  : list new_result * Instances :=
  match calls with
  | [] => ([], i)
  | e :: calls' =>
      let (r, i1) := __new__ e i in
      let (rs, i2) := news calls' i1 in
      (r :: rs, i2)
  end.

(** The calls before the first one without further arguments. *)
Fixpoint failed_prefix (calls : list bool) : nat :=
  match calls with
  | true :: calls' => S (failed_prefix calls')
  | _ => O
  end.

(** ** Proof steps used more than once *)

(** Runs the binds, reads and assignments of a method body. *)
Ltac run_monad :=
  unfold bind, gets, modify, ret, lift; cbn [fst snd
    cube_root_dir cube_cache_dir _last_cycle_hit_count _last_cycle_miss_count
    _last_cycle_preload_time total_count total_hit_count total_miss_count
    total_preload_time should_exit
    set_cube_root_dir set_last_cycle_hit_count set_last_cycle_miss_count
    set_last_cycle_preload_time set_total_count set_total_hit_count
    set_total_miss_count set_total_preload_time].

(** ** Binary digits, shifts and rounding *)

Lemma digits2_pos_size (p : positive) : digits2_pos p = Pos.size p.
Proof. induction p; simpl; congruence. Qed.

Lemma Zdigits2_log2 (z : Z) : 0 < z -> Zdigits2 z = Z.log2 z + 1.
Proof.
  destruct z as [| p | p]; try lia. intros _. simpl.
  rewrite digits2_pos_size. destruct p; simpl; lia.
Qed.

Lemma Zdigits2_nonneg (z : Z) : 0 <= z -> 0 <= Zdigits2 z.
Proof. destruct z; simpl; lia. Qed.

Lemma Zdigits2_pos (z : Z) : 0 < z -> 0 < Zdigits2 z.
Proof. destruct z; simpl; lia. Qed.

Lemma Zdigits2_le_mono (a b : Z) : 0 <= a <= b -> Zdigits2 a <= Zdigits2 b.
Proof.
  intros [Ha Hab]. destruct (Z.eq_dec a 0) as [-> | Hn].
  - apply Zdigits2_nonneg. lia.
  - rewrite !Zdigits2_log2 by lia.
    pose proof (Z.log2_le_mono a b Hab). lia.
Qed.

Lemma Zdigits2_succ (a : Z) : 0 <= a -> Zdigits2 (a + 1) <= Zdigits2 a + 1.
Proof.
  intro Ha. destruct (Z.eq_dec a 0) as [-> | Hn]; [simpl; lia |].
  rewrite !Zdigits2_log2 by lia.
  pose proof (Z.log2_succ_le a). unfold Z.succ in *. lia.
Qed.

Lemma Zdigits2_mul_pow2 (a s : Z) :
  0 < a -> 0 <= s -> Zdigits2 (a * 2 ^ s) = Zdigits2 a + s.
Proof.
  intros Ha Hs.
  assert (0 < 2 ^ s) by (apply Z.pow_pos_nonneg; lia).
  rewrite !Zdigits2_log2 by nia.
  rewrite Z.log2_mul_pow2 by lia. lia.
Qed.

Lemma Zdigits2_bound (a k : Z) : 0 <= a < 2 ^ k -> 0 <= k -> Zdigits2 a <= k.
Proof.
  intros [Ha Hk] Hk0. destruct (Z.eq_dec a 0) as [-> | Hn]; [simpl; lia |].
  rewrite Zdigits2_log2 by lia.
  assert (Z.log2 a < k) by (apply Z.log2_lt_pow2; lia). lia.
Qed.

Lemma shr_1_spec (mrs : shr_record) :
  0 <= shr_m mrs ->
  0 <= shr_m (shr_1 mrs)
  /\ Zdigits2 (shr_m (shr_1 mrs)) = Z.max (Zdigits2 (shr_m mrs) - 1) 0.
Proof.
  destruct mrs as [m r s]. simpl shr_m at 1. intro Hm.
  destruct m as [| [p | p |] | p];
    cbn [shr_1 shr_m Zdigits2 digits2_pos orb];
    rewrite ?Pos2Z.inj_succ; split; lia.
Qed.

Lemma iter_shr_1_spec (p : positive) :
  forall mrs,
    0 <= shr_m mrs ->
    0 <= shr_m (iter_pos shr_1 p mrs)
    /\ Zdigits2 (shr_m (iter_pos shr_1 p mrs))
       = Z.max (Zdigits2 (shr_m mrs) - Zpos p) 0.
Proof.
  induction p as [p IH | p IH |]; intros mrs Hm; simpl iter_pos.
  - destruct (shr_1_spec mrs Hm) as [H1 D1].
    destruct (IH _ H1) as [H2 D2]. destruct (IH _ H2) as [H3 D3].
    split; [exact H3 |]. rewrite D3, D2, D1. lia.
  - destruct (IH _ Hm) as [H2 D2]. destruct (IH _ H2) as [H3 D3].
    split; [exact H3 |]. rewrite D3, D2. lia.
  - apply shr_1_spec, Hm.
Qed.

Lemma shr_spec (mrs : shr_record) (e n : Z) :
  0 <= shr_m mrs ->
  snd (shr mrs e n) = e + Z.max n 0
  /\ 0 <= shr_m (fst (shr mrs e n))
  /\ Zdigits2 (shr_m (fst (shr mrs e n)))
     = if 0 <? n then Z.max (Zdigits2 (shr_m mrs) - n) 0
       else Zdigits2 (shr_m mrs).
Proof.
  intro Hm. destruct n as [| p | p]; simpl; try (repeat split; lia).
  destruct (iter_shr_1_spec p mrs Hm) as [H D].
  repeat split; try lia; assumption.
Qed.

Lemma shr_m_of_loc (m : Z) (l : location) : shr_m (shr_record_of_loc m l) = m.
Proof. destruct l as [| []]; reflexivity. Qed.

Lemma round_nearest_even_bounds (m : Z) (l : location) :
  m <= round_nearest_even m l <= m + 1.
Proof. destruct l as [| []]; simpl; try lia. destruct (Z.even m); lia. Qed.

Lemma binary_round_aux_spec (sx : bool) (mx ex : Z) (lx : location) :
  0 <= mx ->
  exists m e,
    binary_round_aux prec emax sx mx ex lx = bra_result sx m e
    /\ 0 <= m
    /\ e <= Z.max (Z.max ex (Zdigits2 mx + ex - 52)) (-1074)
    /\ (0 < mx -> -1074 <= ex -> 0 < m).
Proof.
  intro Hmx. unfold binary_round_aux, shr_fexp.
  set (r0 := shr_record_of_loc mx lx).
  assert (H0 : 0 <= shr_m r0) by (unfold r0; rewrite shr_m_of_loc; lia).
  set (n1 := fexp prec emax (Zdigits2 mx + ex) - ex).
  destruct (shr_spec r0 ex n1 H0) as (E1 & P1 & D1).
  destruct (shr r0 ex n1) as [mrs1 e1]. cbn [fst snd] in E1, P1, D1.
  unfold r0 in D1. rewrite shr_m_of_loc in D1.
  set (m2 := round_nearest_even (shr_m mrs1) (loc_of_shr_record mrs1)).
  pose proof (round_nearest_even_bounds (shr_m mrs1) (loc_of_shr_record mrs1))
    as Hr. fold m2 in Hr.
  assert (H2 : 0 <= m2) by lia.
  set (r2 := shr_record_of_loc m2 loc_Exact).
  assert (H2' : 0 <= shr_m r2) by (unfold r2; simpl; lia).
  set (n2 := fexp prec emax (Zdigits2 m2 + e1) - e1).
  destruct (shr_spec r2 e1 n2 H2') as (E2 & P2 & D2).
  destruct (shr r2 e1 n2) as [mrs2 e2]. cbn [fst snd] in E2, P2, D2.
  unfold r2 in D2. simpl shr_m in D2.
  exists (shr_m mrs2), e2.
  assert (Hd2 : Zdigits2 (shr_m mrs1) <= Zdigits2 m2 <= Zdigits2 (shr_m mrs1) + 1).
  { split; [apply Zdigits2_le_mono; lia |].
    apply Z.le_trans with (Zdigits2 (shr_m mrs1 + 1));
      [apply Zdigits2_le_mono; lia | apply Zdigits2_succ; lia]. }
  pose proof (Zdigits2_nonneg mx Hmx) as Hdm.
  unfold fexp, emin, prec, emax in n1, n2.
  split; [| split; [exact P2 | split]].
  - unfold bra_result, prec, emax. reflexivity.
  - subst n1 n2. destruct (0 <? _) eqn:C1 in D1; destruct (0 <? _) eqn:C2 in D2;
      try apply Z.ltb_lt in C1; try apply Z.ltb_ge in C1;
      try apply Z.ltb_lt in C2; try apply Z.ltb_ge in C2; lia.
  - intros Hpos Hex. pose proof (Zdigits2_pos mx Hpos) as Hdp.
    assert (Hm1 : 0 < Zdigits2 (shr_m mrs1)).
    { subst n1. destruct (0 <? _) eqn:C1 in D1;
        try apply Z.ltb_lt in C1; try apply Z.ltb_ge in C1; lia. }
    assert (Hm2 : 0 < Zdigits2 (shr_m mrs2)).
    { subst n2. destruct (0 <? _) eqn:C2 in D2;
        try apply Z.ltb_lt in C2; try apply Z.ltb_ge in C2; lia. }
    destruct (shr_m mrs2); simpl in Hm2; lia.
Qed.

Lemma bra_result_not_zero (sx : bool) (m e : Z) :
  0 < m -> is_zero (bra_result sx m e) = false.
Proof.
  destruct m as [| p | p]; try lia. intros _. simpl.
  destruct (e <=? 971); reflexivity.
Qed.

Lemma bra_result_finite (sx : bool) (m e : Z) :
  0 <= m -> e <= 971 ->
  finite_or_overflow (bra_result sx m e) = Return (bra_result sx m e).
Proof.
  destruct m as [| p | p]; try lia; intros _ He; simpl; [reflexivity |].
  destruct (Z.leb_spec e 971); [reflexivity | lia].
Qed.

Lemma finite_or_overflow_not_zero (f g : spec_float) :
  finite_or_overflow f = Return g -> is_zero f = false -> is_zero g = false.
Proof. destruct f; simpl; intros H Hz; inversion H; subst; assumption. Qed.

Lemma digits2_pos_iter_xO (p k : positive) :
  Zpos (digits2_pos (Pos.iter xO p k)) = Zpos (digits2_pos p) + Zpos k.
Proof.
  induction k as [| k IH] using Pos.peano_ind.
  - simpl. lia.
  - rewrite Pos.iter_succ. cbn [digits2_pos].
    rewrite Pos2Z.inj_succ, IH. lia.
Qed.

Lemma binary_round_int_spec (sx : bool) (p : positive) :
  exists m e,
    binary_round prec emax sx p 0 = bra_result sx m e
    /\ 0 < m
    /\ e <= Z.max 0 (Zpos (digits2_pos p) - 52).
Proof.
  unfold binary_round, shl_align.
  set (d := Zpos (digits2_pos p)).
  assert (Hd : 0 < d) by (unfold d; lia).
  set (e0 := fexp prec emax (d + 0)).
  assert (He0 : e0 = Z.max (d - 53) (-1074))
    by (unfold e0, fexp, emin, prec, emax; f_equal; lia).
  destruct (e0 - 0) as [| k | k] eqn:Ek.
  - destruct (binary_round_aux_spec sx (Zpos p) 0 loc_Exact) as (m & e & E & Hm & He & Hp);
      [lia |].
    exists m, e. split; [exact E |]. split; [apply Hp; lia |].
    cbn [Zdigits2] in He. fold d in He. lia.
  - destruct (binary_round_aux_spec sx (Zpos p) 0 loc_Exact) as (m & e & E & Hm & He & Hp);
      [lia |].
    exists m, e. split; [exact E |]. split; [apply Hp; lia |].
    cbn [Zdigits2] in He. fold d in He. lia.
  - destruct (binary_round_aux_spec sx (Zpos (Pos.iter xO p k)) e0 loc_Exact)
      as (m & e & E & Hm & He & Hp); [lia |].
    exists m, e. split; [exact E |]. split; [apply Hp; lia |].
    cbn [Zdigits2] in He. rewrite digits2_pos_iter_xO in He. fold d in He.
    lia.
Qed.

Lemma float_of_int_nonzero (z : Z) (f : spec_float) :
  z <> 0 -> float_of_int z = Return f -> is_zero f = false.
Proof.
  intros Hz E. unfold float_of_int in E.
  apply (finite_or_overflow_not_zero _ _ E).
  destruct z as [| p | p]; [contradiction | |]; cbn [binary_normalize].
  - destruct (binary_round_int_spec false p) as (m & e & Eb & Hm & _).
    rewrite Eb. apply bra_result_not_zero, Hm.
  - destruct (binary_round_int_spec true p) as (m & e & Eb & Hm & _).
    rewrite Eb. apply bra_result_not_zero, Hm.
Qed.

Lemma float_of_int_returns (z : Z) :
  Z.abs z < 2 ^ 1023 ->
  exists f, float_of_int z = Return f /\ (z <> 0 -> is_zero f = false).
Proof.
  intro Hb. unfold float_of_int.
  destruct z as [| p | p]; cbn [binary_normalize].
  - eexists. split; [reflexivity | intro H; contradiction].
  - destruct (binary_round_int_spec false p) as (m & e & Eb & Hm & He).
    pose proof (Zdigits2_bound (Zpos p) 1023) as Hd. cbn [Zdigits2] in Hd.
    rewrite Eb. exists (bra_result false m e).
    split; [apply bra_result_finite; lia |].
    intros _. apply bra_result_not_zero, Hm.
  - destruct (binary_round_int_spec true p) as (m & e & Eb & Hm & He).
    pose proof (Zdigits2_bound (Zpos p) 1023) as Hd. cbn [Zdigits2] in Hd.
    rewrite Eb. exists (bra_result true m e).
    split; [apply bra_result_finite; lia |].
    intros _. apply bra_result_not_zero, Hm.
Qed.

Lemma SFdiv_core_int_spec (a b : positive) :
  exists q e l,
    SFdiv_core_binary prec emax (Zpos a) 0 (Zpos b) 0 = (q, e, l)
    /\ 0 <= q /\ e <= 0
    /\ Zdigits2 q + e <= Zpos (digits2_pos a).
Proof.
  unfold SFdiv_core_binary.
  set (e' := Z.min (fexp prec emax (Zdigits2 (Zpos a) + 0 - (Zdigits2 (Zpos b) + 0))) (0 - 0)).
  assert (He : e' <= 0) by (unfold e'; lia).
  set (s := 0 - 0 - e').
  set (m' := match s with
             | 0 => Zpos a
             | Zpos _ => Z.shiftl (Zpos a) s
             | Zneg _ => 0
             end).
  assert (Hm : 0 <= m' /\ Zdigits2 m' + e' <= Zpos (digits2_pos a)).
  { unfold m'. destruct s as [| k | k] eqn:Es.
    - cbn [Zdigits2]. lia.
    - rewrite Z.shiftl_mul_pow2 by lia.
      rewrite Zdigits2_mul_pow2 by lia. cbn [Zdigits2].
      assert (0 < 2 ^ Zpos k) by (apply Z.pow_pos_nonneg; lia).
      split; [nia | lia].
    - lia. }
  destruct Hm as [Hm0 Hmd].
  pose proof (Z_div_mod m' (Zpos b) ltac:(lia)) as Hdiv.
  destruct (Z.div_eucl m' (Zpos b)) as [q r].
  destruct Hdiv as [Eq Hr].
  exists q, e', (new_location (Zpos b) r).
  split; [reflexivity |].
  assert (Hq : 0 <= q <= m') by nia.
  split; [lia |]. split; [exact He |].
  pose proof (Zdigits2_le_mono q m' Hq). lia.
Qed.

Lemma int_truediv_returns (a b : Z) :
  b <> 0 -> Z.abs a < 2 ^ 1023 -> exists q, int_truediv a b = Return q.
Proof.
  intros Hb Ha. unfold int_truediv.
  destruct (Z.eqb_spec b 0) as [| _]; [contradiction |].
  destruct (Z.eqb_spec a 0) as [| Hna]; [eexists; reflexivity |].
  assert (H : forall sa sb pa pb,
             Zpos pa < 2 ^ 1023 ->
             exists q, finite_or_overflow
                         (SFdiv prec emax (S754_finite sa pa 0) (S754_finite sb pb 0))
                       = Return q).
  { intros sa sb pa pb Hpa. cbn [SFdiv].
    destruct (SFdiv_core_int_spec pa pb) as (q & e & l & E & Hq & He & Hd).
    rewrite E.
    destruct (binary_round_aux_spec (xorb sa sb) q e l Hq)
      as (m & e2 & Eb & Hm & He2 & _).
    rewrite Eb. eexists. apply bra_result_finite; [exact Hm |].
    pose proof (Zdigits2_bound (Zpos pa) 1023) as Hdb. cbn [Zdigits2] in Hdb.
    lia. }
  destruct a as [| pa | pa]; [contradiction | |];
    destruct b as [| pb | pb]; try contradiction; cbn [int_mantissa];
      apply H; lia.
Qed.

Lemma int_truediv_not_zero_division (a b : Z) :
  b <> 0 -> int_truediv a b <> Raise ZeroDivisionError.
Proof.
  intros Hb. unfold int_truediv.
  destruct (Z.eqb_spec b 0) as [| _]; [contradiction |].
  destruct (a =? 0); [discriminate |].
  destruct (SFdiv prec emax (int_mantissa a) (int_mantissa b)); discriminate.
Qed.

(** ** Python arithmetic *)

Lemma float_of_int_zero : float_of_int 0 = Return (S754_zero false).
Proof. reflexivity. Qed.

Lemma float_of_int_raise (z : Z) (e : exn) :
  float_of_int z = Raise e -> e = OverflowError /\ 2 ^ 1023 <= Z.abs z.
Proof.
  intro H. split.
  - unfold float_of_int, finite_or_overflow in H.
    destruct (binary_normalize prec emax z 0 false); congruence.
  - destruct (Z_lt_le_dec (Z.abs z) (2 ^ 1023)) as [Hlt | Hge]; [| exact Hge].
    destruct (float_of_int_returns z Hlt) as (f & E & _). congruence.
Qed.

Lemma num_add_raise (x y : num) (e : exn) :
  num_add x y = Raise e ->
  e = OverflowError
  /\ exists z f,
      ((x = PyInt z /\ y = PyFloat f) \/ (x = PyFloat f /\ y = PyInt z))
      /\ 2 ^ 1023 <= Z.abs z.
Proof.
  destruct x as [a | f], y as [b | g]; cbn [num_add]; try discriminate.
  - destruct (float_of_int a) eqn:E; cbn [outcome_bind]; [discriminate |].
    intro H. injection H as <-. destruct (float_of_int_raise a _ E) as [-> Hb].
    split; [reflexivity |]. exists a, g. split; [left; split; reflexivity | exact Hb].
  - destruct (float_of_int b) eqn:E; cbn [outcome_bind]; [discriminate |].
    intro H. injection H as <-. destruct (float_of_int_raise b _ E) as [-> Hb].
    split; [reflexivity |]. exists b, f. split; [right; split; reflexivity | exact Hb].
Qed.

Lemma num_add_zero_r (x : num) :
  num_add x (PyInt 0) = Return x
  \/ (x = PyFloat (S754_zero true)
      /\ num_add x (PyInt 0) = Return (PyFloat (S754_zero false))).
Proof.
  destruct x as [a | f]; cbn [num_add].
  - left. rewrite Z.add_0_r. reflexivity.
  - rewrite float_of_int_zero. cbn [outcome_bind].
    destruct f as [[] | [] | | s m e]; cbn [SFadd];
      try (left; reflexivity).
    right. split; reflexivity.
Qed.

Lemma int_truediv_raise_overflow (a b : Z) (e : exn) :
  b <> 0 -> int_truediv a b = Raise e -> e = OverflowError.
Proof.
  intros Hb. unfold int_truediv.
  destruct (Z.eqb_spec b 0) as [| _]; [contradiction |].
  destruct (a =? 0); [discriminate |].
  destruct (SFdiv prec emax (int_mantissa a) (int_mantissa b));
    cbn [finite_or_overflow]; congruence.
Qed.

Lemma num_truediv_int_raise_overflow (x : num) (b : Z) (e : exn) :
  b <> 0 -> num_truediv_int x b = Raise e -> e = OverflowError.
Proof.
  intros Hb. destruct x as [a | f]; cbn [num_truediv_int].
  - apply int_truediv_raise_overflow, Hb.
  - destruct (float_of_int b) as [g | e'] eqn:E; cbn [outcome_bind].
    + unfold float_truediv.
      rewrite (float_of_int_nonzero b g Hb E). discriminate.
    + intro H. injection H as <-.
      apply (float_of_int_raise b e' E).
Qed.

Lemma num_truediv_int_returns (x : num) (b : Z) :
  b <> 0 -> Z.abs b < 2 ^ 1023 ->
  match x with PyInt a => Z.abs a < 2 ^ 1023 | PyFloat _ => True end ->
  exists q, num_truediv_int x b = Return q.
Proof.
  intros Hb Hbb Hx. destruct x as [a | f]; cbn [num_truediv_int].
  - apply int_truediv_returns; assumption.
  - destruct (float_of_int_returns b Hbb) as (g & E & Hz).
    rewrite E. cbn [outcome_bind]. unfold float_truediv.
    rewrite (Hz Hb). eexists; reflexivity.
Qed.

(** ** One flush *)

Lemma report_args_closed (now : string) (pid : Z) (s : State) :
  report_args now pid s
  = match num_add (total_preload_time s) (_last_cycle_preload_time s) with
    | Raise e => (Raise e, accumulate_counts s)
    | Return v =>
        let s1 := set_total_preload_time v (accumulate_counts s) in
        (rates now pid (request_count_of s) s1, s1)
    end.
Proof.
  unfold report_args, rates. run_monad. cbv zeta.
  change (if _last_cycle_hit_count s + _last_cycle_miss_count s =? 0
          then 1
          else _last_cycle_hit_count s + _last_cycle_miss_count s)
    with (request_count_of s).
  destruct (num_add (total_preload_time s) (_last_cycle_preload_time s));
    [| reflexivity].
  run_monad. cbn [accumulate_counts cube_root_dir cube_cache_dir
    _last_cycle_hit_count _last_cycle_miss_count _last_cycle_preload_time
    total_count total_hit_count total_miss_count total_preload_time
    should_exit].
  repeat (match goal with
          | |- context [int_truediv ?a ?b] => destruct (int_truediv a b)
          | |- context [num_truediv_int ?a ?b] =>
              destruct (num_truediv_int a b)
          end; cbn [outcome_bind]; try reflexivity).
Qed.

Lemma print_hit_rate_closed (now : string) (pid : Z) (s : State) :
  print_hit_rate now pid s
  = match num_add (total_preload_time s) (_last_cycle_preload_time s) with
    | Raise e => (Raise e, accumulate_counts s)
    | Return v =>
        let s1 := set_total_preload_time v (accumulate_counts s) in
        match rates now pid (request_count_of s) s1 with
        | Return a => (Return (format_mesg a), reset s1)
        | Raise e => (Raise e, s1)
        end
    end.
Proof.
  unfold print_hit_rate, bind at 1. rewrite report_args_closed.
  destruct (num_add (total_preload_time s) (_last_cycle_preload_time s));
    [| reflexivity].
  cbv zeta.
  destruct (rates now pid (request_count_of s) _); reflexivity.
Qed.

(** ** Single calls *)

Lemma step_set_params (s : State) (d : string) :
  step s (SetParams d) = set_cube_root_dir d s.
Proof. reflexivity. Qed.

Lemma add_count_closed (b : bool) (p : num) (s : State) :
  add_count b p s
  = if b
    then
      let s1 := set_last_cycle_hit_count (_last_cycle_hit_count s + 1) s in
      match num_add (_last_cycle_preload_time s) p with
      | Return v => (Return tt, set_last_cycle_preload_time v s1)
      | Raise e => (Raise e, s1)
      end
    else (Return tt,
          set_last_cycle_miss_count (_last_cycle_miss_count s + 1) s).
Proof.
  destruct b; [| reflexivity].
  unfold add_count. run_monad.
  destruct (num_add (_last_cycle_preload_time s) p); reflexivity.
Qed.

Lemma step_add_count (s : State) (b : bool) (p : num) :
  step s (AddCount b p) = snd (add_count b p s).
Proof.
  unfold step, invoke, bind. destruct (add_count b p s) as [[] s']; reflexivity.
Qed.

Lemma step_print_hit_rate (s : State) (now : string) (pid : Z) :
  step s (PrintHitRate now pid) = snd (print_hit_rate now pid s).
Proof.
  unfold step, invoke, bind.
  destruct (print_hit_rate now pid s) as [[] s']; reflexivity.
Qed.

Lemma invoke_print_hit_rate (s : State) (now : string) (pid : Z) :
  is_return (fst (invoke (PrintHitRate now pid) s))
  = is_return (fst (print_hit_rate now pid s)).
Proof.
  unfold invoke, bind.
  destruct (print_hit_rate now pid s) as [[] s']; reflexivity.
Qed.

(** What [add_count] does to the counters, whether line 37 raises or not. *)
Lemma add_count_counters (b : bool) (p : num) (s : State) :
  let s' := snd (add_count b p s) in
  _last_cycle_hit_count s'
  = _last_cycle_hit_count s + (if b then 1 else 0)
  /\ _last_cycle_miss_count s'
     = _last_cycle_miss_count s + (if b then 0 else 1)
  /\ total_count s' = total_count s
  /\ total_hit_count s' = total_hit_count s
  /\ total_miss_count s' = total_miss_count s
  /\ total_preload_time s' = total_preload_time s
  /\ cube_cache_dir s' = cube_cache_dir s
  /\ cube_root_dir s' = cube_root_dir s.
Proof.
  rewrite add_count_closed. destruct b; cbv zeta.
  - destruct (num_add (_last_cycle_preload_time s) p); simpl;
      repeat split; lia.
  - simpl. repeat split; lia.
Qed.

(** What [print_hit_rate] does to the attributes on each of its exits. *)
Lemma print_hit_rate_post (now : string) (pid : Z) (s : State) :
  let r := print_hit_rate now pid s in
  total_count (snd r) = total_count s + request_count_of s
  /\ total_hit_count (snd r) = total_hit_count s + _last_cycle_hit_count s
  /\ total_miss_count (snd r) = total_miss_count s + _last_cycle_miss_count s
  /\ cube_cache_dir (snd r) = cube_cache_dir s
  /\ cube_root_dir (snd r) = cube_root_dir s
  /\ match fst r with
     | Return _ =>
         _last_cycle_hit_count (snd r) = 0
         /\ _last_cycle_miss_count (snd r) = 0
         /\ _last_cycle_preload_time (snd r) = PyInt 0
         /\ num_add (total_preload_time s) (_last_cycle_preload_time s)
            = Return (total_preload_time (snd r))
     | Raise _ =>
         _last_cycle_hit_count (snd r) = _last_cycle_hit_count s
         /\ _last_cycle_miss_count (snd r) = _last_cycle_miss_count s
         /\ _last_cycle_preload_time (snd r) = _last_cycle_preload_time s
         /\ (total_preload_time (snd r) = total_preload_time s
             \/ num_add (total_preload_time s) (_last_cycle_preload_time s)
                = Return (total_preload_time (snd r)))
     end.
Proof.
  cbv zeta. rewrite print_hit_rate_closed.
  destruct (num_add (total_preload_time s) (_last_cycle_preload_time s))
    as [v | e]; cbv zeta.
  - destruct (rates now pid (request_count_of s) _); simpl;
      repeat split; auto.
  - simpl. repeat split; auto.
Qed.

Lemma request_count_of_nonzero (s : State) : request_count_of s <> 0.
Proof.
  unfold request_count_of.
  destruct (Z.eqb_spec (_last_cycle_hit_count s + _last_cycle_miss_count s) 0);
    lia.
Qed.

Lemma request_count_of_wf (s : State) :
  wf s ->
  request_count_of s
  = Z.max (_last_cycle_hit_count s + _last_cycle_miss_count s) 1.
Proof.
  intros (Hh & Hm & _). unfold request_count_of.
  destruct (Z.eqb_spec (_last_cycle_hit_count s + _last_cycle_miss_count s) 0);
    lia.
Qed.

Lemma wf_init : wf init.
Proof. unfold wf; simpl; lia. Qed.

Lemma wf_step (s : State) (c : call) : wf s -> wf (step s c).
Proof.
  intros H. destruct c as [d | b p | now pid].
  - exact H.
  - rewrite step_add_count.
    destruct (add_count_counters b p s) as (Eh & Em & Et & _).
    destruct H as (Hh & Hm & Ht). unfold wf. rewrite Eh, Em, Et.
    destruct b; lia.
  - rewrite step_print_hit_rate.
    destruct (print_hit_rate_post now pid s) as (Et & _ & _ & _ & _ & Hc).
    pose proof (request_count_of_wf s H) as Hrc.
    destruct H as (Hh & Hm & Ht). unfold wf. rewrite Et.
    destruct (fst (print_hit_rate now pid s));
      destruct Hc as (-> & -> & _); lia.
Qed.

Lemma run_app (t1 t2 : list call) (s : State) :
  run (t1 ++ t2) s = run t2 (run t1 s).
Proof. apply fold_left_app. Qed.

Lemma wf_run (t : list call) : forall s, wf s -> wf (run t s).
Proof.
  induction t as [| c t IH]; intros s H; simpl.
  - exact H.
  - apply IH, wf_step, H.
Qed.

Lemma reachable_wf (t : list call) : wf (run t init).
Proof. apply wf_run, wf_init. Qed.

(** ** Tame traces never raise *)

Lemma int_bound_nonneg : 0 <= int_bound.
Proof. unfold int_bound. apply Z.pow_nonneg. lia. Qed.

Lemma bounds_fit : int_bound * call_bound < 2 ^ 1023.
Proof. vm_compute. reflexivity. Qed.

Lemma call_bound_fits : call_bound < 2 ^ 1023.
Proof. vm_compute. reflexivity. Qed.

Lemma small_int_fits (x : num) (k : Z) :
  small_int x k -> 0 <= k <= call_bound ->
  match x with PyInt a => Z.abs a < 2 ^ 1023 | PyFloat _ => True end.
Proof.
  destruct x as [a | f]; [| trivial]. cbn [small_int]. intros Ha Hk.
  pose proof int_bound_nonneg. pose proof bounds_fit.
  assert (int_bound * k <= int_bound * call_bound)
    by (apply Z.mul_le_mono_nonneg_l; lia).
  lia.
Qed.

Lemma num_add_small (x y : num) (j k : Z) :
  small_int x j -> small_int y k ->
  0 <= j <= call_bound -> 0 <= k <= call_bound ->
  exists v, num_add x y = Return v /\ small_int v (j + k).
Proof.
  intros Hx Hy Hj Hk.
  pose proof (small_int_fits x j Hx Hj) as Fx.
  pose proof (small_int_fits y k Hy Hk) as Fy.
  destruct x as [a | f], y as [b | g]; cbn [num_add].
  - eexists. split; [reflexivity |]. cbn [small_int] in *.
    rewrite Z.mul_add_distr_l. lia.
  - destruct (float_of_int_returns a Fx) as (fa & E & _). rewrite E.
    eexists. split; [reflexivity | exact I].
  - destruct (float_of_int_returns b Fy) as (fb & E & _). rewrite E.
    eexists. split; [reflexivity | exact I].
  - eexists. split; [reflexivity | exact I].
Qed.

Lemma rates_returns (now : string) (pid : Z) (rc : Z) (s : State) :
  rc <> 0 -> Z.abs rc < 2 ^ 1023 ->
  total_count s <> 0 -> Z.abs (total_count s) < 2 ^ 1023 ->
  Z.abs (_last_cycle_hit_count s) < 2 ^ 1023 ->
  Z.abs (_last_cycle_miss_count s) < 2 ^ 1023 ->
  Z.abs (total_hit_count s) < 2 ^ 1023 ->
  Z.abs (total_miss_count s) < 2 ^ 1023 ->
  match _last_cycle_preload_time s with
  | PyInt a => Z.abs a < 2 ^ 1023 | PyFloat _ => True end ->
  match total_preload_time s with
  | PyInt a => Z.abs a < 2 ^ 1023 | PyFloat _ => True end ->
  exists a, rates now pid rc s = Return a.
Proof.
  intros Hrc Brc Htc Btc Bh Bm Bth Btm Bcp Btp. unfold rates.
  destruct (int_truediv_returns (_last_cycle_hit_count s) rc Hrc Bh)
    as [q1 E1].
  destruct (int_truediv_returns (_last_cycle_miss_count s) rc Hrc Bm)
    as [q2 E2].
  destruct (num_truediv_int_returns (_last_cycle_preload_time s) rc
                                    Hrc Brc Bcp) as [q3 E3].
  destruct (int_truediv_returns (total_hit_count s) (total_count s) Htc Bth)
    as [q4 E4].
  destruct (int_truediv_returns (total_miss_count s) (total_count s) Htc Btm)
    as [q5 E5].
  destruct (num_truediv_int_returns (total_preload_time s) (total_count s)
                                    Htc Btc Btp) as [q6 E6].
  rewrite E1, E2, E3, E4, E5, E6. cbn [outcome_bind].
  eexists; reflexivity.
Qed.

Lemma tame_state_init : tame_state 0 init.
Proof.
  unfold tame_state, init, small_int; simpl.
  pose proof int_bound_nonneg. repeat split; lia.
Qed.

Lemma tame_state_wf (n : Z) (s : State) : tame_state n s -> wf s.
Proof. unfold tame_state, wf. intros (? & ? & ? & ? & ? & ? & _). lia. Qed.

Lemma tame_print_hit_rate (n : Z) (s : State) (now : string) (pid : Z) :
  tame_state n s -> n < call_bound ->
  exists line s',
    print_hit_rate now pid s = (Return line, s')
    /\ tame_state (n + 1) s'.
Proof.
  intros Ht Hn. pose proof (tame_state_wf n s Ht) as Hwf.
  pose proof (request_count_of_wf s Hwf) as Hrc.
  destruct Ht as (Hh & Hm & Hth & Htm & Hle & Hb & Scp & Stp).
  pose proof call_bound_fits as Hcb.
  destruct (num_add_small (total_preload_time s) (_last_cycle_preload_time s)
                          (total_hit_count s) (_last_cycle_hit_count s)
                          Stp Scp ltac:(lia) ltac:(lia)) as (v & Ev & Sv).
  rewrite print_hit_rate_closed, Ev. cbv zeta.
  set (s1 := set_total_preload_time v (accumulate_counts s)).
  pose proof (small_int_fits _ _ Scp ltac:(lia)) as Fcp.
  pose proof (small_int_fits _ _ Sv ltac:(lia)) as Fv.
  destruct (rates_returns now pid (request_count_of s) s1) as [a Ea];
    try (unfold s1; cbn; lia); try assumption.
  rewrite Ea. do 2 eexists. split; [reflexivity |].
  unfold tame_state, s1. cbn. pose proof int_bound_nonneg.
  repeat split; try lia. exact Sv.
Qed.

Lemma tame_add_count (n : Z) (s : State) (b : bool) (p : num) :
  tame_state n s -> n < call_bound -> tame_call (AddCount b p) ->
  exists s',
    add_count b p s = (Return tt, s') /\ tame_state (n + 1) s'.
Proof.
  intros Ht Hn Hc.
  destruct Ht as (Hh & Hm & Hth & Htm & Hle & Hb & Scp & Stp).
  rewrite add_count_closed. destruct b; cbv zeta.
  - assert (Sp : small_int p 1).
    { destruct p as [z | f]; [| exact I]. cbn [tame_call] in Hc.
      cbn [small_int]. lia. }
    pose proof call_bound_fits.
    assert (Hcb : 1 <= call_bound) by (vm_compute; discriminate).
    destruct (num_add_small (_last_cycle_preload_time s) p
                            (_last_cycle_hit_count s) 1
                            Scp Sp ltac:(lia) ltac:(lia)) as (v & Ev & Sv).
    rewrite Ev. eexists. split; [reflexivity |].
    unfold tame_state. cbn. repeat split; try lia; assumption.
  - eexists. split; [reflexivity |].
    unfold tame_state. cbn. repeat split; try lia; assumption.
Qed.

Lemma tame_invoke (n : Z) (s : State) (c : call) :
  tame_state n s -> n < call_bound -> tame_call c ->
  (exists v, fst (invoke c s) = Return v) /\ tame_state (n + 1) (step s c).
Proof.
  intros Ht Hn Hc. destruct c as [d | b p | now pid].
  - split; [eexists; reflexivity |].
    destruct Ht as (? & ? & ? & ? & ? & ? & ? & ?).
    unfold tame_state. cbn. repeat split; try lia; assumption.
  - destruct (tame_add_count n s b p Ht Hn Hc) as (s' & E & Ht').
    unfold step, invoke, bind. rewrite E.
    split; [eexists; reflexivity | exact Ht'].
  - destruct (tame_print_hit_rate n s now pid Ht Hn) as (l & s' & E & Ht').
    unfold step, invoke, bind. rewrite E.
    split; [eexists; reflexivity | exact Ht'].
Qed.

Lemma tame_run (t : list call) :
  forall (n : Z) (s : State),
    tame_state n s ->
    n + Z.of_nat (List.length t) <= call_bound ->
    Forall tame_call t ->
    Forall (fun o => exists v, o = Return v) (outputs t s)
    /\ tame_state (n + Z.of_nat (List.length t)) (run t s).
Proof.
  induction t as [| c t IH]; intros n s Ht Hn Hc.
  - simpl. rewrite Z.add_0_r. split; [constructor | exact Ht].
  - inversion Hc as [| c' t' Hc1 Hc2]; subst.
    cbn [List.length] in Hn. rewrite Nat2Z.inj_succ in Hn.
    destruct (tame_invoke n s c Ht ltac:(lia) Hc1) as [Hr Ht'].
    destruct (IH (n + 1) (step s c) Ht' ltac:(lia) Hc2) as [Ho Hs].
    cbn [outputs run fold_left List.length]. rewrite Nat2Z.inj_succ.
    split; [constructor; assumption |].
    replace (n + Z.succ (Z.of_nat (List.length t)))
      with (n + 1 + Z.of_nat (List.length t)) by lia.
    exact Hs.
Qed.

Lemma tame_reaches (t : list call) :
  tame t -> tame_state (Z.of_nat (List.length t)) (run t init).
Proof.
  intros [Hl Hc].
  destruct (tame_run t 0 init tame_state_init ltac:(lia) Hc) as [_ H].
  exact H.
Qed.

Lemma tame_flush_returns (t : list call) (now : string) (pid : Z) :
  tame t ->
  exists line s', print_hit_rate now pid (run t init) = (Return line, s').
Proof.
  intros Ht. pose proof (tame_reaches t Ht) as Hs. destruct Ht as [Hl _].
  destruct (tame_print_hit_rate _ _ now pid Hs Hl) as (l & s' & E & _).
  exists l, s'. exact E.
Qed.

Lemma outputs_flushes_return (t : list call) :
  forall s,
    Forall (fun o => exists v, o = Return v) (outputs t s) ->
    flushes_return t s = true.
Proof.
  induction t as [| c t IH]; intros s H; [reflexivity |].
  cbn [outputs] in H. inversion H as [| o os [v Ho] Hos]; subst.
  cbn [flushes_return]. rewrite (IH _ Hos), Ho. cbn.
  destruct (is_flush c); reflexivity.
Qed.

Lemma tame_flushes_return (t : list call) :
  tame t -> flushes_return t init = true.
Proof.
  intros [Hl Hc]. apply outputs_flushes_return.
  apply (tame_run t 0 init tame_state_init ltac:(lia) Hc).
Qed.

(** ** The arguments of a report *)

Lemma rates_fields (now : string) (pid : Z) (rc : Z) (s : State)
      (a : FormatArgs) :
  rates now pid rc s = Return a ->
  arg_now a = now /\ arg_pid a = pid
  /\ arg_cube_cache_dir a = cube_cache_dir s
  /\ arg_request_count a = rc
  /\ arg_hit_count a = _last_cycle_hit_count s
  /\ arg_miss_count a = _last_cycle_miss_count s
  /\ arg_total_count a = total_count s
  /\ arg_total_hit_count a = total_hit_count s
  /\ arg_total_miss_count a = total_miss_count s
  /\ num_truediv_int (_last_cycle_preload_time s) rc
     = Return (arg_avg_preload_time a)
  /\ num_truediv_int (total_preload_time s) (total_count s)
     = Return (arg_total_avg_preload_time a).
Proof.
  unfold rates.
  destruct (int_truediv (_last_cycle_hit_count s) rc); [| discriminate].
  destruct (int_truediv (_last_cycle_miss_count s) rc); [| discriminate].
  destruct (num_truediv_int (_last_cycle_preload_time s) rc);
    [| discriminate].
  destruct (int_truediv (total_hit_count s) (total_count s));
    [| discriminate].
  destruct (int_truediv (total_miss_count s) (total_count s));
    [| discriminate].
  destruct (num_truediv_int (total_preload_time s) (total_count s));
    [| discriminate].
  cbn [outcome_bind]. intro H. injection H as <-. cbn.
  repeat split; reflexivity.
Qed.

Lemma rates_raise_overflow (now : string) (pid : Z) (rc : Z) (s : State)
      (e : exn) :
  rc <> 0 -> total_count s <> 0 ->
  rates now pid rc s = Raise e -> e = OverflowError.
Proof.
  intros Hrc Htc. unfold rates.
  destruct (int_truediv (_last_cycle_hit_count s) rc) eqn:E1;
    cbn [outcome_bind];
    [| intro H; injection H as <-;
       apply (int_truediv_raise_overflow _ _ _ Hrc E1)].
  destruct (int_truediv (_last_cycle_miss_count s) rc) eqn:E2;
    cbn [outcome_bind];
    [| intro H; injection H as <-;
       apply (int_truediv_raise_overflow _ _ _ Hrc E2)].
  destruct (num_truediv_int (_last_cycle_preload_time s) rc) eqn:E3;
    cbn [outcome_bind];
    [| intro H; injection H as <-;
       apply (num_truediv_int_raise_overflow _ _ _ Hrc E3)].
  destruct (int_truediv (total_hit_count s) (total_count s)) eqn:E4;
    cbn [outcome_bind];
    [| intro H; injection H as <-;
       apply (int_truediv_raise_overflow _ _ _ Htc E4)].
  destruct (int_truediv (total_miss_count s) (total_count s)) eqn:E5;
    cbn [outcome_bind];
    [| intro H; injection H as <-;
       apply (int_truediv_raise_overflow _ _ _ Htc E5)].
  destruct (num_truediv_int (total_preload_time s) (total_count s)) eqn:E6;
    cbn [outcome_bind];
    [discriminate
    | intro H; injection H as <-;
      apply (num_truediv_int_raise_overflow _ _ _ Htc E6)].
Qed.

(** The line of a flush that returned. *)
Lemma print_hit_rate_line (now : string) (pid : Z) (s : State)
      (line : string) (s' : State) :
  print_hit_rate now pid s = (Return line, s') ->
  exists a,
    line = format_mesg a
    /\ arg_now a = now /\ arg_pid a = pid
    /\ arg_cube_cache_dir a = cube_cache_dir s
    /\ arg_request_count a = request_count_of s
    /\ arg_hit_count a = _last_cycle_hit_count s
    /\ arg_miss_count a = _last_cycle_miss_count s
    /\ arg_total_count a = total_count s'
    /\ arg_total_hit_count a = total_hit_count s'
    /\ arg_total_miss_count a = total_miss_count s'.
Proof.
  rewrite print_hit_rate_closed.
  destruct (num_add (total_preload_time s) (_last_cycle_preload_time s))
    as [v | e]; [| discriminate].
  cbv zeta.
  destruct (rates now pid (request_count_of s) _) as [a | e] eqn:E;
    [| discriminate].
  intro H. injection H as <- <-.
  destruct (rates_fields _ _ _ _ _ E)
    as (F1 & F2 & F3 & F4 & F5 & F6 & F7 & F8 & F9 & _).
  exists a. repeat split; assumption.
Qed.

Lemma format_mesg_prefix (a : FormatArgs) :
  exists rest,
    format_mesg a
    = ("time:" ++ arg_now a ++ " pid:" ++ str_int (arg_pid a)
       ++ " cube_cache_dir:" ++ arg_cube_cache_dir a
       ++ " last_cycle_metrics:([request_count:"
       ++ str_int (arg_request_count a) ++ " hit_count:" ++ rest)%string.
Proof. unfold format_mesg. eexists. reflexivity. Qed.

(** ** [add_count] *)

(** C6, as stated, fails: when the cycle's preload time is a float and the
    preload time passed is an [int] out of the range of a float, line 37
    raises [OverflowError] after line 36 has counted the hit. *)
Lemma add_count_overflow :
  let s := step init (AddCount true (PyFloat half)) in
  let r := add_count true (PyInt (10 ^ 309)) s in
  _last_cycle_hit_count s = 1
  /\ fst r = Raise OverflowError
  /\ _last_cycle_hit_count (snd r) = 2
  /\ _last_cycle_preload_time (snd r) = PyFloat half.
Proof. vm_compute. repeat split. Qed.

(** C6, amended.  In every state and for every preload time, [add_count]
    with [is_cache] false returns, adds one to [_last_cycle_miss_count] and
    ignores the preload time.  With [is_cache] true it adds one to
    [_last_cycle_hit_count] and then adds the preload time to
    [_last_cycle_preload_time] with Python's [+]; when that raises, the
    hit is already counted and the preload time of the cycle is as before.
    It raises only [OverflowError], and only when one of the two numbers
    is a float and the other an [int] of absolute value at least
    [2 ^ 1023].  Every other attribute, the four lifetime accumulators
    among them, keeps its value. *)
Theorem add_count_effect (s : State) (preload_time : num) :
  add_count false preload_time s
  = (Return tt,
     mkState (cube_root_dir s) (cube_cache_dir s)
             (_last_cycle_hit_count s) (_last_cycle_miss_count s + 1)
             (_last_cycle_preload_time s)
             (total_count s) (total_hit_count s) (total_miss_count s)
             (total_preload_time s) (should_exit s))
  /\ add_count true preload_time s
     = match num_add (_last_cycle_preload_time s) preload_time with
       | Return v =>
           (Return tt,
            mkState (cube_root_dir s) (cube_cache_dir s)
                    (_last_cycle_hit_count s + 1) (_last_cycle_miss_count s)
                    v
                    (total_count s) (total_hit_count s) (total_miss_count s)
                    (total_preload_time s) (should_exit s))
       | Raise e =>
           (Raise e,
            mkState (cube_root_dir s) (cube_cache_dir s)
                    (_last_cycle_hit_count s + 1) (_last_cycle_miss_count s)
                    (_last_cycle_preload_time s)
                    (total_count s) (total_hit_count s) (total_miss_count s)
                    (total_preload_time s) (should_exit s))
       end
  /\ forall e,
      num_add (_last_cycle_preload_time s) preload_time = Raise e ->
      e = OverflowError
      /\ exists z f,
          ((_last_cycle_preload_time s = PyInt z
            /\ preload_time = PyFloat f)
           \/ (_last_cycle_preload_time s = PyFloat f
               /\ preload_time = PyInt z))
          /\ 2 ^ 1023 <= Z.abs z.
Proof.
  split; [reflexivity |]. split.
  - rewrite add_count_closed. cbv zeta.
    destruct (num_add (_last_cycle_preload_time s) preload_time);
      reflexivity.
  - intros e H. apply (num_add_raise _ _ _ H).
Qed.

Lemma add_count_effect_witness :
  let s := step init (AddCount true (PyFloat half)) in
  num_add (_last_cycle_preload_time s) (PyInt (10 ^ 309))
  = Raise OverflowError
  /\ exists z f,
      ((_last_cycle_preload_time s = PyInt z
        /\ PyInt (10 ^ 309) = PyFloat f)
       \/ (_last_cycle_preload_time s = PyFloat f
           /\ PyInt (10 ^ 309) = PyInt z))
      /\ 2 ^ 1023 <= Z.abs z.
Proof.
  intro s.
  assert (H : num_add (_last_cycle_preload_time s) (PyInt (10 ^ 309))
              = Raise OverflowError) by (vm_compute; reflexivity).
  split; [exact H |].
  destruct (add_count_effect s (PyInt (10 ^ 309))) as (_ & _ & Hr).
  exact (proj2 (Hr OverflowError H)).
Defined.

(** ** [print_hit_rate]: reset and division *)

Lemma tame_app_l (t1 t2 : list call) : tame (t1 ++ t2) -> tame t1.
Proof.
  intros [Hl Hc]. rewrite length_app, Nat2Z.inj_add in Hl.
  apply Forall_app in Hc. split; [lia | tauto].
Qed.




(** C8, as stated, fails: a flush can raise [OverflowError] and then
    produces no line, and from a state with a negative [total_count] it
    can raise [ZeroDivisionError]. *)
Lemma flush_can_raise :
  fst (print_hit_rate "t" 1 (run [AddCount true (PyInt (10 ^ 309))] init))
  = Raise OverflowError
  /\ fst (print_hit_rate "t" 1 (set_total_count (-1) init))
     = Raise ZeroDivisionError.
Proof. vm_compute. split; reflexivity. Qed.

(** C8, amended.  In every state whose counters are not negative,
    [print_hit_rate] does not raise [ZeroDivisionError]: the divisor
    [request_count] is not zero, it is 1 when
    [_last_cycle_hit_count + _last_cycle_miss_count] is zero, and
    [total_count] is not zero when the lifetime rates divide by it.  A
    line that a flush of a cycle without requests returns shows
    [request_count:1] in its cycle metrics.  The flush returns a line
    after every tame sequence of calls from the class body's values; out
    of those it can raise [OverflowError]. *)
Theorem print_hit_rate_no_zero_division
        (s : State) (t : list call) (now : string) (pid : Z) :
  (wf s ->
   fst (print_hit_rate now pid s) <> Raise ZeroDivisionError
   /\ request_count_of s <> 0
   /\ total_count (snd (print_hit_rate now pid s)) <> 0
   /\ (_last_cycle_hit_count s + _last_cycle_miss_count s = 0 ->
       request_count_of s = 1))
  /\ (forall line s',
         print_hit_rate now pid s = (Return line, s') ->
         _last_cycle_hit_count s + _last_cycle_miss_count s = 0 ->
         exists rest,
           line
           = ("time:" ++ now ++ " pid:" ++ str_int pid
              ++ " cube_cache_dir:" ++ cube_cache_dir s
              ++ " last_cycle_metrics:([request_count:1 hit_count:"
              ++ rest)%string)
  /\ (tame t ->
      exists line s',
        print_hit_rate now pid (run t init) = (Return line, s')).
Proof.
  split; [| split].
  - intro Hwf. pose proof (request_count_of_wf s Hwf) as Hrc.
    pose proof (request_count_of_nonzero s) as Hnz.
    destruct (print_hit_rate_post now pid s) as (Et & _).
    destruct Hwf as (Hh & Hm & Htc).
    assert (Hd : total_count s + request_count_of s <> 0) by lia.
    split; [| split; [exact Hnz | split; [rewrite Et; exact Hd |]]].
    + rewrite print_hit_rate_closed.
      destruct (num_add (total_preload_time s) (_last_cycle_preload_time s))
        as [v | e] eqn:Ev.
      * cbv zeta.
        destruct (rates now pid (request_count_of s) _) as [a | e] eqn:Er;
          cbn [fst]; [discriminate |].
        apply rates_raise_overflow in Er; [subst e; discriminate | exact Hnz |].
        exact Hd.
      * destruct (num_add_raise _ _ _ Ev) as [-> _]. cbn [fst]. discriminate.
    + intro Hz. unfold request_count_of. rewrite Hz. reflexivity.
  - intros line s' E Hz.
    destruct (print_hit_rate_line now pid s line s' E)
      as (a & -> & F1 & F2 & F3 & F4 & _).
    destruct (format_mesg_prefix a) as [rest Hp]. exists rest.
    rewrite Hp, F1, F2, F3, F4. unfold request_count_of. rewrite Hz.
    reflexivity.
  - intro Ht. apply tame_flush_returns, Ht.
Qed.

Lemma print_hit_rate_no_zero_division_witness :
  let t := [AddCount true (PyFloat half); PrintHitRate "t0" 1] in
  wf init
  /\ tame t
  /\ fst (print_hit_rate "t" 1 init) <> Raise ZeroDivisionError
  /\ (exists line s',
        print_hit_rate "t" 1 (run t init) = (Return line, s'))
  /\ exists rest,
      fst (print_hit_rate "t" 1 init)
      = Return ("time:" ++ "t" ++ " pid:" ++ str_int 1
                ++ " cube_cache_dir:" ++ cube_cache_dir init
                ++ " last_cycle_metrics:([request_count:1 hit_count:"
                ++ rest)%string.
Proof.
  intro t.
  assert (Hwf : wf init) by (unfold wf; simpl; lia).
  assert (Ht : tame t).
  { split; [vm_compute; reflexivity | repeat constructor]. }
  destruct (print_hit_rate_no_zero_division init t "t" 1) as (H1 & H2 & H3).
  split; [exact Hwf |]. split; [exact Ht |].
  split; [exact (proj1 (H1 Hwf)) |]. split; [exact (H3 Ht) |].
  destruct (print_hit_rate "t" 1 init) as [o s'] eqn:E.
  assert (Ho : exists line, o = Return line).
  { assert (Hf : fst (print_hit_rate "t" 1 init) = o) by (rewrite E; reflexivity).
    vm_compute in Hf. rewrite <- Hf. eexists; reflexivity. }
  destruct Ho as [line ->].
  destruct (H2 line s' eq_refl eq_refl) as [rest Hr].
  exists rest. cbn [fst]. rewrite Hr. reflexivity.
Defined.

(** ** Two flushes in a row *)

(** C3, as stated, fails: the second of two flushes in a row adds the
    substituted [request_count] 1 to [total_count]. *)
Lemma second_flush_changes_total_count :
  let s1 := step init (PrintHitRate "t1" 1) in
  let s2 := step s1 (PrintHitRate "t2" 1) in
  total_count s1 = 1 /\ total_count s2 = 2 /\ total_count s2 <> total_count s1.
Proof. vm_compute. repeat split; discriminate. Qed.

(** C3, amended.  When two [print_hit_rate] calls in a row both return,
    the second leaves [total_hit_count] and [total_miss_count] as the
    first left them, adds 1 to [total_count], and leaves
    [total_preload_time] as it was, but for a float total of minus zero,
    which becomes zero.  Both return after every tame sequence of calls
    from the class body's values. *)
Theorem second_flush_totals
        (s : State) (t : list call)
        (now1 : string) (pid1 : Z) (now2 : string) (pid2 : Z) :
  (forall line1 s1 line2 s2,
      print_hit_rate now1 pid1 s = (Return line1, s1) ->
      print_hit_rate now2 pid2 s1 = (Return line2, s2) ->
      total_hit_count s2 = total_hit_count s1
      /\ total_miss_count s2 = total_miss_count s1
      /\ total_count s2 = total_count s1 + 1
      /\ (total_preload_time s2 = total_preload_time s1
          \/ (total_preload_time s1 = PyFloat (S754_zero true)
              /\ total_preload_time s2 = PyFloat (S754_zero false))))
  /\ (tame (t ++ [PrintHitRate now1 pid1]) ->
      exists line1 s1 line2 s2,
        print_hit_rate now1 pid1 (run t init) = (Return line1, s1)
        /\ print_hit_rate now2 pid2 s1 = (Return line2, s2)).
Proof.
  split.
  - intros line1 s1 line2 s2 E1 E2.
    destruct (print_hit_rate_post now1 pid1 s) as (_ & _ & _ & _ & _ & C1).
    rewrite E1 in C1. cbn [fst snd] in C1. destruct C1 as (Hh & Hm & Hp & _).
    destruct (print_hit_rate_post now2 pid2 s1) as (Tc & Th & Tm & _ & _ & C2).
    rewrite E2 in Tc, Th, Tm, C2. cbn [fst snd] in Tc, Th, Tm, C2.
    destruct C2 as (_ & _ & _ & Ha).
    rewrite Hp in Ha. unfold request_count_of in Tc.
    rewrite Hh, Hm in Tc. rewrite Hh in Th. rewrite Hm in Tm. cbn in Tc.
    repeat split; try lia.
    destruct (num_add_zero_r (total_preload_time s1)) as [E | [Ez E]];
      rewrite E in Ha; injection Ha as Ha.
    + left. congruence.
    + right. split; congruence.
  - intro Ht.
    destruct (tame_flush_returns t now1 pid1 (tame_app_l _ _ Ht))
      as (line1 & s1 & E1).
    destruct (tame_flush_returns _ now2 pid2 Ht) as (line2 & s2 & E2).
    rewrite run_app in E2. cbn [run fold_left] in E2.
    rewrite step_print_hit_rate, E1 in E2. cbn [snd] in E2.
    exists line1, s1, line2, s2. split; assumption.
Qed.

Lemma second_flush_totals_witness :
  let t := [AddCount true (PyFloat half)] in
  tame (t ++ [PrintHitRate "t1" 1])
  /\ exists line1 s1 line2 s2,
      print_hit_rate "t1" 1 (run t init) = (Return line1, s1)
      /\ print_hit_rate "t2" 1 s1 = (Return line2, s2)
      /\ total_hit_count s2 = total_hit_count s1
      /\ total_miss_count s2 = total_miss_count s1
      /\ total_count s2 = total_count s1 + 1.
Proof.
  intro t.
  assert (Ht : tame (t ++ [PrintHitRate "t1" 1])).
  { split; [vm_compute; reflexivity | repeat constructor]. }
  split; [exact Ht |].
  destruct (second_flush_totals (run t init) t "t1" 1 "t2" 1) as [H1 H2].
  destruct (H2 Ht) as (line1 & s1 & line2 & s2 & E1 & E2).
  destruct (H1 line1 s1 line2 s2 E1 E2) as (Hh & Hm & Hc & _).
  exists line1, s1, line2, s2. repeat split; assumption.
Defined.

(** ** The lifetime request count *)

(** C1, as stated, fails: a flush of a cycle without [add_count] calls
    counts one request that is neither a hit nor a miss.  And a flush that
    raises has advanced the lifetime counters without the reset, so that
    the next flush counts the cycle again. *)
Lemma empty_flush_breaks_total_count :
  let s := step init (PrintHitRate "t" 1) in
  let t := [AddCount true (PyInt (10 ^ 309));
            PrintHitRate "t1" 1; PrintHitRate "t2" 1] in
  total_count s = 1
  /\ total_hit_count s + total_miss_count s = 0
  /\ total_count s <> total_hit_count s + total_miss_count s
  /\ totals (run t init) = (2, 2, 0, PyInt (2 * 10 ^ 309))
  /\ empty_flushes t = 1.
Proof. vm_compute. repeat split; discriminate. Qed.

Lemma empty_flushes_from_nonneg (t : list call) :
  forall n, 0 <= empty_flushes_from n t.
Proof.
  induction t as [| c t IH]; intro n; simpl; [lia |].
  destruct c as [d | b p | now pid]; auto.
  specialize (IH O). destruct n; lia.
Qed.

Lemma flushes_return_cons (c : call) (t : list call) (s : State) :
  flushes_return (c :: t) s = true ->
  (is_flush c = true -> is_return (fst (invoke c s)) = true)
  /\ flushes_return t (step s c) = true.
Proof.
  cbn [flushes_return]. intro H. apply andb_prop in H. destruct H as [H1 H2].
  split; [| exact H2]. intro Hf. rewrite Hf in H1. exact H1.
Qed.

(** A flush that returned: the counters after it. *)
Lemma step_flush_returned (s : State) (now : string) (pid : Z) :
  is_return (fst (invoke (PrintHitRate now pid) s)) = true ->
  let s' := step s (PrintHitRate now pid) in
  _last_cycle_hit_count s' = 0
  /\ _last_cycle_miss_count s' = 0
  /\ total_count s' = total_count s + request_count_of s
  /\ total_hit_count s' = total_hit_count s + _last_cycle_hit_count s
  /\ total_miss_count s' = total_miss_count s + _last_cycle_miss_count s.
Proof.
  rewrite invoke_print_hit_rate. intro Hr. cbv zeta.
  rewrite step_print_hit_rate.
  destruct (print_hit_rate_post now pid s) as (Tc & Th & Tm & _ & _ & C).
  destruct (fst (print_hit_rate now pid s)); [| discriminate Hr].
  destruct C as (Hh & Hm & _). repeat split; assumption.
Qed.

Lemma total_count_from (t : list call) :
  forall (s : State) (n : nat),
    wf s ->
    _last_cycle_hit_count s + _last_cycle_miss_count s = Z.of_nat n ->
    flushes_return t s = true ->
    total_count (run t s) - total_hit_count (run t s)
      - total_miss_count (run t s)
    = total_count s - total_hit_count s - total_miss_count s
      + empty_flushes_from n t.
Proof.
  induction t as [| c t IH]; intros s n Hwf Hn Hr; simpl; [lia |].
  pose proof (wf_step s c Hwf) as Hwf'.
  destruct (flushes_return_cons c t s Hr) as [Hc Hr'].
  destruct c as [d | b p | now pid].
  - rewrite (IH _ n Hwf'); [reflexivity | exact Hn | exact Hr'].
  - destruct (add_count_counters b p s) as (Eh & Em & Et & Eth & Etm & _).
    rewrite <- step_add_count in Eh, Em, Et, Eth, Etm.
    rewrite (IH _ (S n) Hwf'); [| | exact Hr'].
    + rewrite Et, Eth, Etm. reflexivity.
    + rewrite Eh, Em. destruct b; lia.
  - destruct (step_flush_returned s now pid (Hc eq_refl))
      as (Eh & Em & Et & Eth & Etm).
    rewrite (IH _ O Hwf'); [| | exact Hr'].
    + rewrite Et, Eth, Etm. unfold request_count_of. rewrite Hn.
      destruct (Z.eqb_spec (Z.of_nat n) 0) as [E | E]; destruct n; lia.
    + rewrite Eh, Em. reflexivity.
Qed.

(** C1, amended.  After every sequence of calls from the class body's
    values in which every [print_hit_rate] returned, so in particular
    right after each such flush, [total_count] is
    [total_hit_count + total_miss_count] plus the number of flushes so far
    that closed a cycle without [add_count] calls.  The equality of the
    claim holds exactly when there was no such flush.  Every flush of a
    tame sequence of calls returns. *)
Theorem total_count_counts_empty_flushes (t : list call) :
  (flushes_return t init = true ->
   let s := run t init in
   total_count s = total_hit_count s + total_miss_count s + empty_flushes t
   /\ 0 <= empty_flushes t
   /\ (total_count s = total_hit_count s + total_miss_count s
       <-> empty_flushes t = 0))
  /\ (tame t -> flushes_return t init = true).
Proof.
  split; [| apply tame_flushes_return].
  intro Hr.
  pose proof (total_count_from t init O wf_init eq_refl Hr) as H.
  pose proof (empty_flushes_from_nonneg t O) as Hn.
  unfold empty_flushes. simpl in *. repeat split; lia.
Qed.

Lemma total_count_counts_empty_flushes_witness :
  let t := [AddCount true (PyFloat half); PrintHitRate "t1" 1;
            PrintHitRate "t2" 1] in
  flushes_return t init = true
  /\ total_count (run t init)
     = total_hit_count (run t init) + total_miss_count (run t init)
       + empty_flushes t.
Proof.
  intro t.
  assert (Ht : tame t).
  { split; [vm_compute; reflexivity | repeat constructor]. }
  destruct (total_count_counts_empty_flushes t) as [H1 H2].
  split; [exact (H2 Ht) | exact (proj1 (H1 (H2 Ht)))].
Defined.

(** ** Monotonicity of the lifetime accumulators *)

(** C5, as stated, fails: a negative preload time recorded with a hit
    makes the next flush lower [total_preload_time], from 0 to -1.  Without
    any negative preload time, an [int] total of [2 ^ 53 + 1] that meets a
    float is rounded: adding 0.5 leaves the float [2 ^ 53], which is
    less. *)
Lemma negative_preload_lowers_total :
  let t1 := [AddCount true (PyInt (-1)); PrintHitRate "t" 1] in
  let t2 := [AddCount true (PyInt (2 ^ 53 + 1)); PrintHitRate "t" 1] in
  let t3 := [AddCount true (PyFloat half); PrintHitRate "t" 1] in
  total_preload_time init = PyInt 0
  /\ total_preload_time (run t1 init) = PyInt (-1)
  /\ total_preload_time (run t2 init) = PyInt 9007199254740993
  /\ total_preload_time (run (t2 ++ t3) init)
     = PyFloat (S754_finite false 4503599627370496 1)
  /\ 4503599627370496 * 2 ^ 1 < 9007199254740993.
Proof. vm_compute. repeat split. Qed.

Lemma counts_le_step (s : State) (c : call) :
  wf s ->
  total_count s <= total_count (step s c)
  /\ total_hit_count s <= total_hit_count (step s c)
  /\ total_miss_count s <= total_miss_count (step s c).
Proof.
  intro H. destruct c as [d | b p | now pid].
  - simpl. lia.
  - rewrite step_add_count.
    destruct (add_count_counters b p s) as (_ & _ & Et & Eth & Etm & _).
    lia.
  - rewrite step_print_hit_rate.
    destruct (print_hit_rate_post now pid s) as (Tc & Th & Tm & _).
    pose proof (request_count_of_wf s H) as Hrc.
    destruct H as (Hh & Hm & Ht). lia.
Qed.

Lemma counts_le_run (t : list call) :
  forall s,
    wf s ->
    total_count s <= total_count (run t s)
    /\ total_hit_count s <= total_hit_count (run t s)
    /\ total_miss_count s <= total_miss_count (run t s).
Proof.
  induction t as [| c t IH]; intros s H; simpl; [lia |].
  pose proof (counts_le_step s c H) as Hs.
  pose proof (IH (step s c) (wf_step s c H)) as Hr.
  lia.
Qed.

Lemma totals_no_flush (t : list call) :
  forall s, no_flush t -> totals (run t s) = totals s.
Proof.
  induction t as [| c t IH]; intros s H; simpl; [reflexivity |].
  inversion H as [| c' t' Hc Ht]; subst.
  rewrite (IH _ Ht).
  destruct c as [d | b p | now pid]; [reflexivity | | discriminate Hc].
  rewrite step_add_count.
  destruct (add_count_counters b p s) as (_ & _ & Et & Eth & Etm & Etp & _).
  unfold totals. rewrite Et, Eth, Etm, Etp. reflexivity.
Qed.

(** C5, amended.  Along every sequence of calls from the class body's
    values, [total_count], [total_hit_count] and [total_miss_count] never
    decrease, and a stretch of calls without [print_hit_rate] changes none
    of the four lifetime accumulators. *)
Theorem lifetime_accumulators_monotone (t1 t2 : list call) :
  let s1 := run t1 init in
  let s2 := run (t1 ++ t2) init in
  total_count s1 <= total_count s2
  /\ total_hit_count s1 <= total_hit_count s2
  /\ total_miss_count s1 <= total_miss_count s2
  /\ (no_flush t2 -> totals s2 = totals s1).
Proof.
  cbv zeta. rewrite run_app.
  pose proof (reachable_wf t1) as Hwf.
  destruct (counts_le_run t2 _ Hwf) as (Hc & Hh & Hm).
  repeat split; try assumption. apply totals_no_flush.
Qed.

Lemma lifetime_accumulators_monotone_witness :
  let t1 := [AddCount true (PyFloat half); PrintHitRate "t" 1] in
  let t2 := [AddCount true (PyFloat one); AddCount false (PyInt 0)] in
  no_flush t2
  /\ totals (run (t1 ++ t2) init) = totals (run t1 init).
Proof.
  intros t1 t2.
  assert (Hf : no_flush t2) by (repeat constructor).
  destruct (lifetime_accumulators_monotone t1 t2) as (_ & _ & _ & H4).
  split; [exact Hf | exact (H4 Hf)].
Defined.

(** ** Sums over cycles *)

Lemma run_record_calls (rs : list (bool * num)) :
  forall s,
    let s' := run (record_calls rs) s in
    _last_cycle_hit_count s' = _last_cycle_hit_count s + count_hits rs
    /\ _last_cycle_miss_count s' = _last_cycle_miss_count s + count_misses rs
    /\ total_count s' = total_count s
    /\ total_hit_count s' = total_hit_count s
    /\ total_miss_count s' = total_miss_count s.
Proof.
  unfold count_hits, count_misses.
  induction rs as [| [b p] rs IH]; intros s; simpl.
  - repeat split; lia.
  - destruct (IH (step s (AddCount b p))) as (Hh & Hm & Ht & Hth & Htm).
    fold (record_calls rs). fold (run (record_calls rs) (step s (AddCount b p))).
    rewrite Hh, Hm, Ht, Hth, Htm. rewrite step_add_count.
    destruct (add_count_counters b p s) as (Eh & Em & Et & Eth & Etm & _).
    rewrite Eh, Em, Et, Eth, Etm.
    destruct b; simpl List.length; repeat split; lia.
Qed.

Lemma flushes_return_app (t1 t2 : list call) :
  forall s,
    flushes_return (t1 ++ t2) s
    = flushes_return t1 s && flushes_return t2 (run t1 s).
Proof.
  induction t1 as [| c t1 IH]; intro s; [reflexivity |].
  cbn [app flushes_return run fold_left]. rewrite IH.
  fold (run t1 (step s c)). rewrite andb_assoc. reflexivity.
Qed.

Lemma count_hits_misses (rs : list (bool * num)) :
  count_hits rs + count_misses rs = Z.of_nat (List.length rs).
Proof.
  unfold count_hits, count_misses.
  induction rs as [| [b p] rs IH]; simpl; [reflexivity |].
  destruct b; simpl List.length; lia.
Qed.

Lemma cycle_requests_split (c : cycle) :
  cycle_requests c
  = cycle_hits c + cycle_misses c
    + match records c with [] => 1 | _ :: _ => 0 end.
Proof.
  unfold cycle_requests, cycle_hits, cycle_misses.
  rewrite count_hits_misses.
  destruct (records c) as [| r rs]; simpl List.length; lia.
Qed.

Lemma run_cycle (c : cycle) (s : State) :
  wf s -> _last_cycle_hit_count s = 0 -> _last_cycle_miss_count s = 0 ->
  flushes_return (cycle_calls c) s = true ->
  let s' := run (cycle_calls c) s in
  wf s'
  /\ _last_cycle_hit_count s' = 0
  /\ _last_cycle_miss_count s' = 0
  /\ total_count s' = total_count s + cycle_requests c
  /\ total_hit_count s' = total_hit_count s + cycle_hits c
  /\ total_miss_count s' = total_miss_count s + cycle_misses c.
Proof.
  intros Hwf Hh Hm Hr s'.
  split; [apply wf_run, Hwf |].
  subst s'. unfold cycle_calls in *. rewrite run_app.
  rewrite flushes_return_app in Hr. apply andb_prop in Hr.
  destruct Hr as [_ Hr].
  destruct (run_record_calls (records c) s) as (Eh & Em & Et & Eth & Etm).
  pose proof (wf_run (record_calls (records c)) s Hwf) as Hwf'.
  set (s1 := run (record_calls (records c)) s) in *.
  destruct (flushes_return_cons _ _ _ Hr) as [Hc _].
  destruct (step_flush_returned s1 _ _ (Hc eq_refl))
    as (Fh & Fm & Ft & Fth & Ftm).
  cbn [run fold_left]. rewrite Fh, Fm, Ft, Fth, Ftm.
  rewrite (request_count_of_wf s1 Hwf').
  unfold cycle_requests, cycle_hits, cycle_misses.
  rewrite Eh, Em, Hh, Hm, Et, Eth, Etm. simpl Z.add.
  repeat split; reflexivity.
Qed.

Lemma run_cycles (cs : list cycle) :
  forall s,
    wf s -> _last_cycle_hit_count s = 0 -> _last_cycle_miss_count s = 0 ->
    flushes_return (cycles_calls cs) s = true ->
    let s' := run (cycles_calls cs) s in
    _last_cycle_hit_count s' = 0
    /\ _last_cycle_miss_count s' = 0
    /\ total_count s' = total_count s + Zsum (map cycle_requests cs)
    /\ total_hit_count s' = total_hit_count s + Zsum (map cycle_hits cs)
    /\ total_miss_count s' = total_miss_count s + Zsum (map cycle_misses cs).
Proof.
  induction cs as [| c cs IH]; intros s Hwf Hh Hm Hr; simpl.
  - repeat split; lia.
  - cbn [cycles_calls flat_map] in Hr. rewrite flushes_return_app in Hr.
    apply andb_prop in Hr. destruct Hr as [Hr1 Hr2].
    rewrite run_app.
    destruct (run_cycle c s Hwf Hh Hm Hr1)
      as (Hwf1 & Hh1 & Hm1 & Ec & Eh & Em).
    destruct (IH _ Hwf1 Hh1 Hm1 Hr2) as (Hh2 & Hm2 & Ec2 & Eh2 & Em2).
    fold (cycles_calls cs).
    rewrite Hh2, Hm2, Ec2, Eh2, Em2, Ec, Eh, Em.
    repeat split; lia.
Qed.

(** C9, as stated, fails: the flush of a cycle with an [int] preload time
    out of the range of a float raises after it has advanced
    [total_hit_count] and before the reset, and the flush of the next
    cycle, which is empty, adds the same hit again. *)
Lemma raised_flush_counts_twice :
  let cs := [mkCycle [(true, PyInt (10 ^ 309))] "t1" 1; mkCycle [] "t2" 1] in
  total_hit_count (run (cycles_calls cs) init) = 2
  /\ Zsum (map cycle_hits cs) = 1.
Proof. vm_compute. split; reflexivity. Qed.

(** C9, amended.  After [k] cycles from the class body's values, each made
    of any [add_count] calls and closed by one [print_hit_rate], all of
    which returned, [total_hit_count] is the sum over the cycles of the
    number of calls with [is_cache] true and [total_miss_count] the sum of
    the number of calls with [is_cache] false.  Those numbers are the
    values that [_last_cycle_hit_count] and [_last_cycle_miss_count] hold
    when the flush of the cycle starts.  Every flush of a tame sequence
    of calls returns. *)
Theorem totals_sum_of_cycles (cs : list cycle) :
  (flushes_return (cycles_calls cs) init = true ->
   let s := run (cycles_calls cs) init in
   total_hit_count s = Zsum (map cycle_hits cs)
   /\ total_miss_count s = Zsum (map cycle_misses cs)
   /\ forall c : cycle,
       let s1 := run (record_calls (records c)) s in
       _last_cycle_hit_count s1 = cycle_hits c
       /\ _last_cycle_miss_count s1 = cycle_misses c)
  /\ (tame (cycles_calls cs) ->
      flushes_return (cycles_calls cs) init = true).
Proof.
  split; [| apply tame_flushes_return].
  intro Hr.
  destruct (run_cycles cs init wf_init eq_refl eq_refl Hr)
    as (Hh & Hm & _ & Eh & Em).
  cbv zeta. split; [exact Eh |]. split; [exact Em |].
  intro c.
  destruct (run_record_calls (records c) (run (cycles_calls cs) init))
    as (E1 & E2 & _).
  cbv zeta in E1, E2. rewrite E1, E2, Hh, Hm. split; reflexivity.
Qed.

Lemma totals_sum_of_cycles_witness :
  let cs := [mkCycle [(true, PyFloat half); (false, PyInt 0)] "t1" 1;
             mkCycle [] "t2" 1] in
  flushes_return (cycles_calls cs) init = true
  /\ total_hit_count (run (cycles_calls cs) init) = Zsum (map cycle_hits cs)
  /\ total_miss_count (run (cycles_calls cs) init)
     = Zsum (map cycle_misses cs).
Proof.
  intro cs.
  assert (Ht : tame (cycles_calls cs)).
  { split; [vm_compute; reflexivity | repeat constructor]. }
  destruct (totals_sum_of_cycles cs) as [H1 H2].
  destruct (H1 (H2 Ht)) as (H3 & H4 & _).
  split; [exact (H2 Ht) |]. split; [exact H3 | exact H4].
Defined.

Lemma empty_cycles_nonneg (cs : list cycle) : 0 <= empty_cycles cs.
Proof.
  unfold empty_cycles.
  induction cs as [| c cs IH]; simpl; [lia |].
  destruct (records c); lia.
Qed.

Lemma empty_cycles_zero (cs : list cycle) :
  empty_cycles cs = 0 <-> Forall (fun c => records c <> []) cs.
Proof.
  induction cs as [| c cs IH].
  - split; [constructor | reflexivity].
  - pose proof (empty_cycles_nonneg cs) as Hn.
    unfold empty_cycles in *. simpl. split.
    + intro H. destruct (records c) eqn:E.
      * lia.
      * constructor; [rewrite E; discriminate | apply IH; lia].
    + intro H. inversion H as [| c' cs' Hc Hcs]; subst.
      apply IH in Hcs. destruct (records c); [contradiction | lia].
Qed.

Lemma cycle_requests_sum (cs : list cycle) :
  Zsum (map cycle_requests cs)
  = Zsum (map cycle_hits cs) + Zsum (map cycle_misses cs) + empty_cycles cs.
Proof.
  unfold empty_cycles.
  induction cs as [| c cs IH]; simpl; [reflexivity |].
  rewrite IH, cycle_requests_split. lia.
Qed.

(** Whether flushes raise or not: every flush adds at least one request,
    and never fewer requests than hits and misses. *)
Lemma requests_bound_run (t : list call) :
  forall s,
    wf s ->
    total_hit_count s + total_miss_count s <= total_count s ->
    total_hit_count (run t s) + total_miss_count (run t s)
    <= total_count (run t s)
    /\ total_count s + Z.of_nat (List.length (filter is_flush t))
       <= total_count (run t s).
Proof.
  induction t as [| c t IH]; intros s Hwf Hle; simpl; [lia |].
  pose proof (wf_step s c Hwf) as Hwf'.
  destruct c as [d | b p | now pid]; cbn [is_flush].
  - apply (IH _ Hwf'). exact Hle.
  - destruct (add_count_counters b p s) as (_ & _ & Et & Eth & Etm & _).
    rewrite <- step_add_count in Et, Eth, Etm.
    destruct (IH _ Hwf') as [H1 H2]; [lia |]. split; [exact H1 | lia].
  - destruct (print_hit_rate_post now pid s) as (Tc & Th & Tm & _).
    rewrite <- step_print_hit_rate in Tc, Th, Tm.
    pose proof (request_count_of_wf s Hwf) as Hrc.
    destruct Hwf as (Hh & Hm & Ht).
    destruct (IH _ Hwf') as [H1 H2]; [lia |].
    split; [exact H1 |]. simpl List.length. lia.
Qed.

Lemma cycles_calls_flushes (cs : list cycle) :
  List.length (filter is_flush (cycles_calls cs)) = List.length cs.
Proof.
  induction cs as [| c cs IH]; [reflexivity |].
  cbn [cycles_calls flat_map]. rewrite filter_app, length_app.
  fold (cycles_calls cs). rewrite IH. unfold cycle_calls.
  rewrite filter_app, length_app. cbn.
  assert (H : List.length (filter is_flush (record_calls (records c))) = O).
  { induction (records c) as [| r rs IHr]; [reflexivity | exact IHr]. }
  rewrite H. reflexivity.
Qed.

(** C10, as stated, fails: after a flush that raised, the flush of an
    empty cycle finds the counters of the cycle before; [total_count]
    then equals [total_hit_count + total_miss_count] although a flushed
    cycle was empty. *)
Lemma raised_flush_hides_empty_cycle :
  let cs := [mkCycle [(true, PyInt (10 ^ 309))] "t1" 1; mkCycle [] "t2" 1] in
  let s := run (cycles_calls cs) init in
  total_count s = 2
  /\ total_hit_count s + total_miss_count s = 2
  /\ ~ Forall (fun c => records c <> []) cs.
Proof.
  cbv zeta. split; [vm_compute; reflexivity |].
  split; [vm_compute; reflexivity |].
  intro H. inversion H as [| c cs' _ H2]; subst.
  inversion H2 as [| c2 cs2 Hc _]; subst. apply Hc. reflexivity.
Qed.

(** C10, amended.  After [k] cycles from the class body's values,
    [total_count] is at least [k] and at least
    [total_hit_count + total_miss_count].  When every flush returned, it is
    the sum over the cycles of [max (hits + misses) 1], and it equals
    [total_hit_count + total_miss_count] exactly when every flushed cycle
    had an [add_count] call.  Every flush of a tame sequence of calls
    returns. *)
Theorem total_count_sum_of_cycles (cs : list cycle) :
  let s := run (cycles_calls cs) init in
  Z.of_nat (List.length cs) <= total_count s
  /\ total_hit_count s + total_miss_count s <= total_count s
  /\ (flushes_return (cycles_calls cs) init = true ->
      total_count s
      = Zsum (map (fun c => Z.max (cycle_hits c + cycle_misses c) 1) cs)
      /\ (total_count s = total_hit_count s + total_miss_count s
          <-> Forall (fun c => records c <> []) cs))
  /\ (tame (cycles_calls cs) ->
      flushes_return (cycles_calls cs) init = true).
Proof.
  cbv zeta.
  destruct (requests_bound_run (cycles_calls cs) init wf_init)
    as [Hb Hk]; [simpl; lia |].
  rewrite cycles_calls_flushes in Hk. simpl in Hk.
  split; [exact Hk |]. split; [exact Hb |].
  split; [| apply tame_flushes_return].
  intro Hr.
  destruct (run_cycles cs init wf_init eq_refl eq_refl Hr)
    as (_ & _ & Ec & Eh & Em).
  simpl in Ec, Eh, Em.
  pose proof (cycle_requests_sum cs) as Hs.
  pose proof (empty_cycles_nonneg cs) as Hn.
  rewrite <- empty_cycles_zero.
  split; [exact Ec |]. lia.
Qed.

Lemma total_count_sum_of_cycles_witness :
  let cs := [mkCycle [(true, PyFloat half); (false, PyInt 0)] "t1" 1;
             mkCycle [] "t2" 1] in
  flushes_return (cycles_calls cs) init = true
  /\ total_count (run (cycles_calls cs) init)
     = Zsum (map (fun c => Z.max (cycle_hits c + cycle_misses c) 1) cs).
Proof.
  intro cs.
  assert (Ht : tame (cycles_calls cs)).
  { split; [vm_compute; reflexivity | repeat constructor]. }
  destruct (total_count_sum_of_cycles cs) as (_ & _ & H3 & H4).
  split; [exact (H4 Ht) | exact (proj1 (H3 (H4 Ht)))].
Defined.

(** ** [set_params] and the label of the report *)



Lemma print_hit_rate_root_dir (now : string) (pid : Z) (d : string)
      (s : State) :
  print_hit_rate now pid (set_cube_root_dir d s)
  = (fst (print_hit_rate now pid s),
     set_cube_root_dir d (snd (print_hit_rate now pid s))).
Proof.
  rewrite !print_hit_rate_closed.
  cbn [set_cube_root_dir total_preload_time _last_cycle_preload_time].
  destruct (num_add (total_preload_time s) (_last_cycle_preload_time s))
    as [v | e]; [| reflexivity].
  cbv zeta.
  change (rates now pid (request_count_of (set_cube_root_dir d s))
                (set_total_preload_time
                   v (accumulate_counts (set_cube_root_dir d s))))
    with (rates now pid (request_count_of s)
                (set_total_preload_time v (accumulate_counts s))).
  destruct (rates now pid (request_count_of s) _); reflexivity.
Qed.



(** No call assigns [cube_cache_dir]. *)
Lemma cube_cache_dir_run (t : list call) :
  forall s, cube_cache_dir (run t s) = cube_cache_dir s.
Proof.
  induction t as [| c t IH]; intro s; simpl; [reflexivity |].
  rewrite IH. destruct c as [d | b p | now pid].
  - reflexivity.
  - rewrite step_add_count. apply (add_count_counters b p s).
  - rewrite step_print_hit_rate. apply (print_hit_rate_post now pid s).
Qed.

(** ** The two-cycle scenario *)

(** C2, as stated, fails: the average preload time of the first cycle is
    the preload total 2.0 over the request count 3, the float
    0.6666666666666666, printed as 0.67, and not 1.0. *)
Lemma first_cycle_avg_preload_two_thirds :
  let s := run first_cycle init in
  option_map arg_avg_preload_time (returned (fst (report_args "t" 1 s)))
  = Some (S754_finite false 6004799503160661 (-53))
  /\ S754_finite false 6004799503160661 (-53) <> one
  /\ fst (print_hit_rate "t" 1 s)
     = Return "time:t pid:1 cube_cache_dir:user memory last_cycle_metrics:([request_count:3 hit_count:2 miss_count:1 hit_rate:66.67% miss_rate:33.33%  avg_preload_time:0.67 s])  sum_metrics:([request_count:3 hit_count:2 miss_count:1 hit_rate:66.67% miss_rate:33.33% avg_preload_time:0.67 s]) "%string.
Proof.
  cbv zeta. split; [vm_compute; reflexivity |].
  split; [discriminate |]. vm_compute. reflexivity.
Qed.

(** C2, amended.  From the class body's values, [set_params "cache-A"],
    [add_count] of a hit with 0.5, a hit with 1.5 and a miss with 0, then
    [print_hit_rate]: the cycle has request count 3, hit count 2, miss
    count 1, hit rate 66.66666666666666 printed 66.67, miss rate
    33.33333333333333 printed 33.33 and average preload time
    0.6666666666666666 printed 0.67, and the lifetime values equal the
    cycle values.  A second cycle with one hit with 1.0, then
    [print_hit_rate]: cycle hit count 1, miss count 0, hit rate 100.0
    printed 100.00, and the lifetime request count 4, hit count 3, miss
    count 1. *)
Theorem two_cycle_scenario (now1 now2 : string) (pid1 pid2 : Z) :
  let two := S754_finite false 4503599627370496 (-51) in
  let three := S754_finite false 6755399441055744 (-51) in
  let r_66 := S754_finite false 4691249611844266 (-46) in
  let r_33 := S754_finite false 4691249611844266 (-47) in
  let two_thirds := S754_finite false 6004799503160661 (-53) in
  let r_100 := S754_finite false 7036874417766400 (-46) in
  let r_75 := S754_finite false 5277655813324800 (-46) in
  let r_25 := S754_finite false 7036874417766400 (-48) in
  let three_quarters := S754_finite false 6755399441055744 (-53) in
  let after_first :=
    mkState "cache-A" "user memory" 0 0 (PyInt 0) 3 2 1 (PyFloat two)
            false in
  let after_second :=
    mkState "cache-A" "user memory" 0 0 (PyInt 0) 4 3 1 (PyFloat three)
            false in
  print_hit_rate now1 pid1 (run first_cycle init)
  = (Return (format_mesg
               (mkArgs now1 pid1 "user memory" 3 2 1
                       r_66 r_33 two_thirds
                       3 2 1
                       r_66 r_33 two_thirds)),
     after_first)
  /\ print_hit_rate now2 pid2 (run second_cycle after_first)
     = (Return (format_mesg
                  (mkArgs now2 pid2 "user memory" 1 1 0
                          r_100 (S754_zero false) one
                          4 3 1
                          r_75 r_25 three_quarters)),
        after_second)
  /\ fmt2 r_66 = "66.67"%string
  /\ fmt2 r_33 = "33.33"%string
  /\ fmt2 two_thirds = "0.67"%string
  /\ fmt2 r_100 = "100.00"%string
  /\ fst (print_hit_rate "t" 1 (run first_cycle init))
     = Return "time:t pid:1 cube_cache_dir:user memory last_cycle_metrics:([request_count:3 hit_count:2 miss_count:1 hit_rate:66.67% miss_rate:33.33%  avg_preload_time:0.67 s])  sum_metrics:([request_count:3 hit_count:2 miss_count:1 hit_rate:66.67% miss_rate:33.33% avg_preload_time:0.67 s]) "%string
  /\ fst (print_hit_rate "t" 1 (run second_cycle after_first))
     = Return "time:t pid:1 cube_cache_dir:user memory last_cycle_metrics:([request_count:1 hit_count:1 miss_count:0 hit_rate:100.00% miss_rate:0.00%  avg_preload_time:1.00 s])  sum_metrics:([request_count:4 hit_count:3 miss_count:1 hit_rate:75.00% miss_rate:25.00% avg_preload_time:0.75 s]) "%string.
Proof.
  cbv zeta. split; [| split].
  - rewrite print_hit_rate_closed. reflexivity.
  - rewrite print_hit_rate_closed. reflexivity.
  - repeat split; vm_compute; reflexivity.
Qed.

(** ** Every recorded call is counted once *)

Lemma counted_calls_from (t : list call) :
  forall s,
    flushes_return t s = true ->
    total_hit_count (run t s) + _last_cycle_hit_count (run t s)
    = total_hit_count s + _last_cycle_hit_count s + hit_calls t
    /\ total_miss_count (run t s) + _last_cycle_miss_count (run t s)
       = total_miss_count s + _last_cycle_miss_count s + miss_calls t.
Proof.
  unfold hit_calls, miss_calls.
  induction t as [| c t IH]; intros s Hr; simpl; [lia |].
  destruct (flushes_return_cons c t s Hr) as [Hc Hr'].
  destruct (IH _ Hr') as [Eh Em]. rewrite Eh, Em.
  destruct c as [d | b p | now pid].
  - simpl. lia.
  - destruct (add_count_counters b p s) as (Fh & Fm & _ & Fth & Ftm & _).
    rewrite <- step_add_count in Fh, Fm, Fth, Ftm.
    rewrite Fh, Fm, Fth, Ftm. destruct b; simpl List.length; lia.
  - destruct (step_flush_returned s now pid (Hc eq_refl))
      as (Fh & Fm & _ & Fth & Ftm).
    rewrite Fh, Fm, Fth, Ftm. simpl. lia.
Qed.

(** After every sequence of calls from the class body's values in which
    every flush returned, the hits flushed so far plus the hits of the
    open cycle are the [add_count] calls made with [is_cache] true, and
    likewise for the misses: a flush moves counts into the lifetime
    attributes without losing or repeating any.  Every flush of a tame
    sequence of calls returns. *)
Theorem recorded_calls_conserved (t : list call) :
  (flushes_return t init = true ->
   let s := run t init in
   total_hit_count s + _last_cycle_hit_count s = hit_calls t
   /\ total_miss_count s + _last_cycle_miss_count s = miss_calls t)
  /\ (tame t -> flushes_return t init = true).
Proof.
  split; [| apply tame_flushes_return].
  intro Hr. destruct (counted_calls_from t init Hr) as [Eh Em].
  cbv zeta. rewrite Eh, Em. simpl. lia.
Qed.

Lemma recorded_calls_conserved_witness :
  let t := [AddCount true (PyFloat half); PrintHitRate "t1" 1;
            AddCount false (PyInt 0); AddCount true (PyInt 7)] in
  flushes_return t init = true
  /\ total_hit_count (run t init) + _last_cycle_hit_count (run t init)
     = hit_calls t
  /\ total_miss_count (run t init) + _last_cycle_miss_count (run t init)
     = miss_calls t.
Proof.
  intro t.
  assert (Ht : tame t).
  { split; [vm_compute; reflexivity |].
    repeat constructor. vm_compute. discriminate. }
  destruct (recorded_calls_conserved t) as [H1 H2].
  split; [exact (H2 Ht) | exact (H1 (H2 Ht))].
Defined.

(** ** The report of a cycle *)

(** A cycle that starts with its two counters at zero, as the class body
    and every flush that returns leave them, and holds [N] calls with
    [is_cache] true and [M] with [is_cache] false: a report that
    [print_hit_rate] computes for it shows hit count [N], miss count [M]
    and request count [max (N + M) 1], and its average preload time is the
    accumulated preload time of the cycle divided by [max (N + M) 1], so
    by all requests and not by the hits alone. *)
Theorem cycle_report
        (s : State) (rs : list (bool * num)) (now : string) (pid : Z)
        (a : FormatArgs) (s1 : State) :
  _last_cycle_hit_count s = 0 ->
  _last_cycle_miss_count s = 0 ->
  report_args now pid (run (record_calls rs) s) = (Return a, s1) ->
  let n := Z.max (count_hits rs + count_misses rs) 1 in
  arg_hit_count a = count_hits rs
  /\ arg_miss_count a = count_misses rs
  /\ arg_request_count a = n
  /\ num_truediv_int
       (_last_cycle_preload_time (run (record_calls rs) s)) n
     = Return (arg_avg_preload_time a).
Proof.
  intros Hh Hm E n.
  destruct (run_record_calls rs s) as (Eh & Em & _).
  cbv zeta in Eh, Em. rewrite Hh in Eh. rewrite Hm in Em.
  simpl Z.add in Eh, Em.
  set (s0 := run (record_calls rs) s) in *.
  assert (Hrc : request_count_of s0 = n).
  { unfold request_count_of, n. rewrite Eh, Em.
    pose proof (count_hits_misses rs) as Hl.
    destruct (Z.eqb_spec (count_hits rs + count_misses rs) 0); lia. }
  rewrite report_args_closed in E.
  destruct (num_add (total_preload_time s0) (_last_cycle_preload_time s0))
    as [v | e]; [| discriminate].
  cbv zeta in E. injection E as E _.
  destruct (rates_fields _ _ _ _ _ E)
    as (_ & _ & _ & F4 & F5 & F6 & _ & _ & _ & F10 & _).
  cbn [set_total_preload_time accumulate_counts _last_cycle_hit_count
       _last_cycle_miss_count _last_cycle_preload_time] in F5, F6, F10.
  rewrite Hrc in F4, F10. rewrite F5, F6, Eh, Em.
  repeat split; assumption.
Qed.

Lemma cycle_report_witness :
  let rs := [(true, PyFloat half); (true, PyFloat three_halves);
             (false, PyInt 0)] in
  let r := report_args "t" 1 (run (record_calls rs) init) in
  exists a,
    r = (Return a, snd r)
    /\ arg_request_count a = Z.max (count_hits rs + count_misses rs) 1
    /\ num_truediv_int
         (_last_cycle_preload_time (run (record_calls rs) init))
         (Z.max (count_hits rs + count_misses rs) 1)
       = Return (arg_avg_preload_time a).
Proof.
  intros rs r.
  destruct r as [o s1] eqn:E.
  assert (Ho : exists a, o = Return a).
  { assert (Hf : fst r = o) by (rewrite E; reflexivity).
    vm_compute in Hf. rewrite <- Hf. eexists; reflexivity. }
  destruct Ho as [a ->]. exists a. cbn [snd].
  destruct (cycle_report init rs "t" 1 a s1 eq_refl eq_refl E)
    as (_ & _ & H3 & H4).
  split; [reflexivity |]. split; [exact H3 | exact H4].
Defined.

(** ** The exception path *)

(** When [print_hit_rate] raises, lines 47-49 have run and lines 74-76
    have not: the three lifetime counters hold the counts of the cycle and
    the cycle counters still hold them too.  A flush that follows and
    returns therefore counts the cycle a second time. *)
Theorem print_hit_rate_raise_state
        (s : State) (now : string) (pid : Z) (e : exn) (s1 : State) :
  print_hit_rate now pid s = (Raise e, s1) ->
  total_count s1 = total_count s + request_count_of s
  /\ total_hit_count s1 = total_hit_count s + _last_cycle_hit_count s
  /\ total_miss_count s1 = total_miss_count s + _last_cycle_miss_count s
  /\ _last_cycle_hit_count s1 = _last_cycle_hit_count s
  /\ _last_cycle_miss_count s1 = _last_cycle_miss_count s
  /\ _last_cycle_preload_time s1 = _last_cycle_preload_time s
  /\ forall now2 pid2 line s2,
      print_hit_rate now2 pid2 s1 = (Return line, s2) ->
      total_count s2 = total_count s + 2 * request_count_of s
      /\ total_hit_count s2
         = total_hit_count s + 2 * _last_cycle_hit_count s
      /\ total_miss_count s2
         = total_miss_count s + 2 * _last_cycle_miss_count s.
Proof.
  intro E.
  destruct (print_hit_rate_post now pid s) as (Tc & Th & Tm & _ & _ & C).
  rewrite E in Tc, Th, Tm, C. cbn [fst snd] in Tc, Th, Tm, C.
  destruct C as (Hh & Hm & Hp & _).
  repeat (split; [assumption |]).
  intros now2 pid2 line s2 E2.
  destruct (print_hit_rate_post now2 pid2 s1) as (Tc2 & Th2 & Tm2 & _).
  rewrite E2 in Tc2, Th2, Tm2. cbn [snd] in Tc2, Th2, Tm2.
  assert (Hrc : request_count_of s1 = request_count_of s)
    by (unfold request_count_of; rewrite Hh, Hm; reflexivity).
  lia.
Qed.

Lemma print_hit_rate_raise_state_witness :
  let s := mkState "/tmp" "user memory" 1 0 (PyInt 0) (-1) 0 0 (PyInt 0)
                   false in
  let r1 := print_hit_rate "t1" 1 s in
  let r2 := print_hit_rate "t2" 1 (snd r1) in
  fst r1 = Raise ZeroDivisionError
  /\ (exists line, fst r2 = Return line)
  /\ total_hit_count (snd r2) = total_hit_count s + 2 * _last_cycle_hit_count s.
Proof.
  intros s r1 r2.
  assert (E1 : r1 = (Raise ZeroDivisionError, snd r1))
    by (vm_compute; reflexivity).
  assert (Hl : exists line, r2 = (Return line, snd r2))
    by (eexists; vm_compute; reflexivity).
  destruct Hl as [line E2].
  destruct (print_hit_rate_raise_state s "t1" 1 _ _ E1)
    as (_ & _ & _ & _ & _ & _ & H).
  split; [rewrite E1; reflexivity |].
  split; [exists line; rewrite E2; reflexivity |].
  exact (proj1 (proj2 (H "t2"%string 1 line (snd r2) E2))).
Defined.

(** ** What the calls never touch *)

(** No call assigns [cube_cache_dir]: in every execution that starts from
    the class body's values, whatever was passed to [set_params], every
    line that a flush returns starts with the time, the process id and
    the label [user memory]. *)
Theorem report_label_constant
        (t : list call) (now : string) (pid : Z) (line : string)
        (s' : State) :
  print_hit_rate now pid (run t init) = (Return line, s') ->
  exists rest,
    line
    = ("time:" ++ now ++ " pid:" ++ str_int pid
       ++ " cube_cache_dir:user memory"
       ++ " last_cycle_metrics:([request_count:" ++ rest)%string.
Proof.
  intro E.
  destruct (print_hit_rate_line _ _ _ _ _ E) as (a & -> & F1 & F2 & F3 & _).
  destruct (format_mesg_prefix a) as [rest Hp].
  rewrite Hp, F1, F2, F3, cube_cache_dir_run. cbn [init cube_cache_dir].
  eexists. reflexivity.
Qed.

Lemma report_label_constant_witness :
  let t := [SetParams "cache-A"; AddCount true (PyFloat half)] in
  let r := print_hit_rate "t" 1 (run t init) in
  exists line rest,
    r = (Return line, snd r)
    /\ line
       = ("time:" ++ "t" ++ " pid:" ++ str_int 1
          ++ " cube_cache_dir:user memory"
          ++ " last_cycle_metrics:([request_count:" ++ rest)%string.
Proof.
  intros t r.
  assert (Hl : exists line, r = (Return line, snd r))
    by (eexists; vm_compute; reflexivity).
  destruct Hl as [line E].
  destruct (report_label_constant t "t" 1 line (snd r) E) as [rest Hr].
  exists line, rest. split; [exact E | exact Hr].
Defined.

Lemma invoke_root_dir (c : call) (d : string) (s : State) :
  fst (invoke c (set_cube_root_dir d s)) = fst (invoke c s)
  /\ forall d',
      set_cube_root_dir d' (step (set_cube_root_dir d s) c)
      = set_cube_root_dir d' (step s c).
Proof.
  destruct c as [d0 | b p | now pid].
  - split; reflexivity.
  - unfold step, invoke, bind. rewrite !add_count_closed.
    destruct b; cbv zeta.
    + cbn [set_cube_root_dir _last_cycle_preload_time].
      destruct (num_add (_last_cycle_preload_time s) p);
        split; reflexivity.
    + split; reflexivity.
  - unfold step, invoke, bind. rewrite print_hit_rate_root_dir.
    destruct (print_hit_rate now pid s) as [[line | e] s1];
      split; reflexivity.
Qed.

Lemma outputs_root_dir (t : list call) :
  forall s1 s2,
    set_cube_root_dir "" s1 = set_cube_root_dir "" s2 ->
    outputs t s1 = outputs t s2
    /\ set_cube_root_dir "" (run t s1) = set_cube_root_dir "" (run t s2).
Proof.
  induction t as [| c t IH]; intros s1 s2 E; simpl;
    [split; [reflexivity | exact E] |].
  assert (Hc : fst (invoke c s1) = fst (invoke c s2)
               /\ set_cube_root_dir "" (step s1 c)
                  = set_cube_root_dir "" (step s2 c)).
  { destruct (invoke_root_dir c (cube_root_dir s1) (set_cube_root_dir "" s1))
      as [F1 G1].
    destruct (invoke_root_dir c (cube_root_dir s2) (set_cube_root_dir "" s2))
      as [F2 G2].
    specialize (G1 ""%string). specialize (G2 ""%string).
    replace (set_cube_root_dir (cube_root_dir s1) (set_cube_root_dir "" s1))
      with s1 in F1, G1 by (destruct s1; reflexivity).
    replace (set_cube_root_dir (cube_root_dir s2) (set_cube_root_dir "" s2))
      with s2 in F2, G2 by (destruct s2; reflexivity).
    rewrite F1, F2, G1, G2, E. split; reflexivity. }
  destruct Hc as [F G]. destruct (IH _ _ G) as [O R].
  rewrite F, O. split; [reflexivity | exact R].
Qed.

(** No call reads [cube_root_dir]: started with any other value of it, a
    sequence of calls gives every caller the same results, the same lines
    and the same exceptions among them, and leaves every other attribute
    with the same value. *)
Theorem cube_root_dir_never_read (t : list call) (d : string) (s : State) :
  outputs t (set_cube_root_dir d s) = outputs t s
  /\ forall d',
      set_cube_root_dir d' (run t (set_cube_root_dir d s))
      = set_cube_root_dir d' (run t s).
Proof.
  destruct (outputs_root_dir t (set_cube_root_dir d s) s eq_refl) as [O R].
  split; [exact O |]. intro d'.
  apply (f_equal (set_cube_root_dir d')) in R. exact R.
Qed.

(** ** One instance *)

Lemma news_existing (calls : list bool) (o : obj) (n : nat) :
  news calls (mkInstances (Some o) n)
  = (repeat (NewReturn o) (List.length calls), mkInstances (Some o) n).
Proof.
  induction calls as [| e calls IH]; simpl; [reflexivity |].
  rewrite IH. reflexivity.
Qed.

(** Whatever instantiations are made, with or without further arguments:
    those before the first one without arguments raise [TypeError] and
    make no object; that one makes the only object there will ever be; it
    and every later one, further arguments or not, return that same
    object. *)
Theorem singleton (calls : list bool) :
  let k := failed_prefix calls in
  let n := List.length calls in
  news calls no_instance
  = (repeat NewTypeError k ++ repeat (NewReturn 0%nat) (n - k),
     if (k <? n)%nat then mkInstances (Some 0%nat) 1 else no_instance).
Proof.
  cbv zeta. unfold no_instance.
  induction calls as [| e calls IH]; [reflexivity |].
  destruct e.
  - cbn [news __new__ _instance failed_prefix List.length].
    rewrite IH. reflexivity.
  - cbn [news __new__ _instance created failed_prefix List.length].
    rewrite news_existing. cbn [repeat app Nat.sub Nat.ltb Nat.leb].
    reflexivity.
Qed.

(** ** No call raises *)

(** In an execution that starts from the class body's values and is tame,
    fewer than [2 ^ 53] calls and every [int] passed as the preload time
    of a hit at most [2 ^ 900] in absolute value, no call raises, whatever
    floats are passed, infinities and NaN among them: each [set_params],
    [add_count] and [print_hit_rate] returns to its caller. *)
Theorem no_call_raises (t : list call) :
  tame t ->
  Forall (fun o => exists v, o = Return v) (outputs t init)
  /\ List.length (outputs t init) = List.length t.
Proof.
  intros [Hl Hc].
  split; [apply (tame_run t 0 init tame_state_init ltac:(lia) Hc) |].
  generalize init. induction t as [| c t IH]; intro s; simpl;
    [reflexivity | rewrite IH; [reflexivity | |]].
  - cbn [List.length] in Hl. lia.
  - inversion Hc; assumption.
Qed.

Lemma no_call_raises_witness :
  let t := [SetParams "cache-A"; AddCount true (PyFloat S754_nan);
            AddCount true (PyFloat (S754_infinity true));
            AddCount true (PyInt (-7)); AddCount false (PyInt (10 ^ 309));
            PrintHitRate "t1" 1; PrintHitRate "t2" 1] in
  tame t
  /\ Forall (fun o => exists v, o = Return v) (outputs t init).
Proof.
  intro t.
  assert (Ht : tame t).
  { split; [vm_compute; reflexivity |].
    repeat constructor. vm_compute. discriminate. }
  split; [exact Ht | exact (proj1 (no_call_raises t Ht))].
Defined.

(** ** The float arithmetic on known values *)

(** 0.1 + 0.2 is 0.30000000000000004, [(2 / 3) * 100] prints 66.67,
    [23 / 160 * 100] is 14.374999999999998 and prints 14.37, [1 / 40]
    prints 0.03, and [10 ** 309 / 1] is out of range. *)
Example float_arithmetic_samples :
  num_add (PyFloat (S754_finite false 7205759403792794 (-56)))
          (PyFloat (S754_finite false 7205759403792794 (-55)))
  = Return (PyFloat (S754_finite false 5404319552844596 (-54)))
  /\ outcome_bind (int_truediv 23 160) (fun q => Return (fmt2 (times_100 q)))
     = Return "14.37"%string
  /\ outcome_bind (int_truediv 1 40) (fun q => Return (fmt2 q))
     = Return "0.03"%string
  /\ int_truediv (10 ^ 309) 1 = Raise OverflowError
  /\ num_add (PyFloat half) (PyInt (10 ^ 309)) = Raise OverflowError
  /\ fmt2 S754_nan = "nan"%string
  /\ fmt2 (S754_infinity true) = "-inf"%string
  /\ fmt2 (S754_zero true) = "-0.00"%string.
Proof. vm_compute. repeat split. Qed.
